(** * AI tutor: the prompt-assembly and state-extraction pipeline

    A shallow embedding of [services/gemini_service.py],
    [backend/chat_service.py], the parts of [backend/models.py],
    [backend/config.py] and [services/firestore_service.py] they use,
    followed by the properties of the pipeline.

    Python [str] values are sequences of Unicode code points, Python
    [int] values are [Z], dictionaries are [gmap]s, and code that can
    raise runs in a state-and-exception monad over the world the
    services share. *)

From Stdlib Require Import ZArith NArith List String Ascii Bool Lia.
From Stdlib Require Import DecimalString.
From stdpp Require Import base option list gmap.

(** ** Python strings *)

Module PyStr.

Local Open Scope N_scope.

(** A [str] is the list of its code points. *)
Definition str : Type := list N.

(** Source literals are written as Rocq strings, which hold the UTF-8
    bytes of the text; [utf8_decode] turns the bytes into code points.
    [need] counts the continuation bytes still expected and [acc] holds
    the bits read so far. *)
Fixpoint utf8_decode (need : nat) (acc : N) (bs : list N) : str :=
  match bs with
  | [] => []
  | b :: bs' =>
      match need with
      | S k =>
          let acc' := N.lor (N.shiftl acc 6) (N.land b 63) in
          match k with
          | O => acc' :: utf8_decode O 0 bs'
          | S _ => utf8_decode k acc' bs'
          end
      | O =>
          if b <? 128 then b :: utf8_decode O 0 bs'
          else if b <? 224 then utf8_decode 1 (N.land b 31) bs'
          else if b <? 240 then utf8_decode 2 (N.land b 15) bs'
          else utf8_decode 3 (N.land b 7) bs'
      end
  end.

Definition py (s : string) : str :=
  utf8_decode O 0 (List.map N_of_ascii (list_ascii_of_string s)).

Arguments py s%_string.

(** The double quote, which the literals below cannot hold. *)
Definition dquote : str := [34].

Definition newline : N := 10.

(** [a + b] on strings, and [sep.join(parts)]. *)
Definition join (sep : str) (parts : list str) : str :=
  match parts with
  | [] => []
  | p :: ps => p ++ List.concat (List.map (fun q => sep ++ q) ps)
  end.

(** [s.startswith(p)]. *)
Fixpoint startswith (s p : str) : bool :=
  match p, s with
  | [], _ => true
  | _ :: _, [] => false
  | a :: p', b :: s' => (a =? b) && startswith s' p'
  end.

(** [sub in s]: [sub] occurs in [s] as a contiguous run. *)
Fixpoint contains (s sub : str) : bool :=
  startswith s sub ||
  match s with
  | [] => false
  | _ :: s' => contains s' sub
  end.

(** [str.isspace] for one code point (Unicode 14). *)
Definition isspace (c : N) : bool :=
  ((9 <=? c) && (c <=? 13)) || ((28 <=? c) && (c <=? 32)) ||
  (c =? 133) || (c =? 160) || (c =? 5760) ||
  ((8192 <=? c) && (c <=? 8202)) || (c =? 8232) || (c =? 8233) ||
  (c =? 8239) || (c =? 8287) || (c =? 12288).

Fixpoint lstrip_by (p : N -> bool) (s : str) : str :=
  match s with
  | [] => []
  | c :: s' => if p c then lstrip_by p s' else s
  end.

Definition rstrip_by (p : N -> bool) (s : str) : str :=
  List.rev (lstrip_by p (List.rev s)).

(** [s.strip()]. *)
Definition strip (s : str) : str := rstrip_by isspace (lstrip_by isspace s).

Definition mem_char (chars : str) (c : N) : bool :=
  List.existsb (N.eqb c) chars.

(** [s.lstrip(chars)]: drops leading code points that belong to [chars]. *)
Definition lstrip (chars : str) (s : str) : str := lstrip_by (mem_char chars) s.

(** [s.split(sep)] for a one-character separator; [cur] is the piece
    being read. *)
Fixpoint split_go (sep : N) (cur : str) (s : str) : list str :=
  match s with
  | [] => [cur]
  | c :: s' =>
      if c =? sep then cur :: split_go sep [] s'
      else split_go sep (cur ++ [c]) s'
  end.

Definition split (sep : N) (s : str) : list str := split_go sep [] s.

(** Case mapping, given on A-Z and a-z; every other code point stays
    where it is. The pipeline lower-cases a text only to search it for
    the emotion labels, and title-cases enum values only. Outside A-Z,
    [str.lower] yields an ASCII letter for two code points: U+212A gives
    k, and U+0130 gives i followed by U+0307. No label has a k or ends
    in i, so the search finds the same labels under this mapping. *)
Definition is_upper (c : N) : bool := (65 <=? c) && (c <=? 90).
Definition is_lower (c : N) : bool := (97 <=? c) && (c <=? 122).
Definition lower_char (c : N) : N := if is_upper c then c + 32 else c.
Definition upper_char (c : N) : N := if is_lower c then c - 32 else c.

(** [s.lower()]. *)
Definition lower (s : str) : str := List.map lower_char s.

(** [s.title()]: a cased character is upper-cased when the character
    before it is not cased, and lower-cased otherwise. *)
Fixpoint title_go (prev_cased : bool) (s : str) : str :=
  match s with
  | [] => []
  | c :: s' =>
      (if prev_cased then lower_char c else upper_char c)
        :: title_go (is_upper c || is_lower c) s'
  end.

Definition title (s : str) : str := title_go false s.

(** [s.replace(a, b)] for single characters. *)
Definition replace_char (a b : N) (s : str) : str :=
  List.map (fun c => if c =? a then b else c) s.

(** The decimal digits of Unicode 14 (category Nd) come in runs of ten,
    in order of value; the table lists the zero of each run. The regex
    class [\d] and [int()] both read this table. *)
Definition nd_zeros : list N :=
  [48; 1632; 1776; 1984; 2406; 2534; 2662; 2790; 2918; 3046; 3174; 3302;
   3430; 3558; 3664; 3792; 3872; 4160; 4240; 6112; 6160; 6470; 6608; 6784;
   6800; 6992; 7088; 7232; 7248; 42528; 43216; 43264; 43472; 43504; 43600;
   44016; 65296; 66720; 68912; 69734; 69872; 69942; 70096; 70384; 70736;
   70864; 71248; 71360; 71472; 71904; 72016; 72784; 73040; 73120; 92768;
   92864; 93008; 120782; 120792; 120802; 120812; 120822; 123200; 123632;
   125264; 130032].

Fixpoint digit_in (zeros : list N) (c : N) : option Z :=
  match zeros with
  | [] => None
  | z :: zs =>
      if (z <=? c) && (c <? z + 10) then Some (Z.of_N (c - z))
      else digit_in zs c
  end.

Definition digit_value (c : N) : option Z := digit_in nd_zeros c.

Definition is_digit (c : N) : bool :=
  match digit_value c with Some _ => true | None => false end.

(** [re.findall(r'\d+', s)]: the maximal runs of digits, left to right;
    [cur] is the run being read. *)
Fixpoint findall_digits_go (cur : str) (s : str) : list str :=
  match s with
  | [] => match cur with [] => [] | _ :: _ => [cur] end
  | c :: s' =>
      if is_digit c then findall_digits_go (cur ++ [c]) s'
      else match cur with
           | [] => findall_digits_go [] s'
           | _ :: _ => cur :: findall_digits_go [] s'
           end
  end.

Definition findall_digits (s : str) : list str := findall_digits_go [] s.

(** [int(s)] on a run of digits. (An interpreter may cap the number of
    digits [int] accepts; no cap is modelled.) *)
Definition int_of_digits (s : str) : Z :=
  List.fold_left
    (fun acc c => (10 * acc + match digit_value c with Some d => d | None => 0 end)%Z)
    s 0%Z.

(** [str(n)] for an [int]. *)
Definition str_of_int (n : Z) : str :=
  py (NilEmpty.string_of_int (Z.to_int n)).

(** [len(s)]. *)
Definition len {A : Type} (l : list A) : Z := Z.of_nat (length l).

(** [l[-n:]] for a positive [n]. *)
Definition last_n {A : Type} (n : nat) (l : list A) : list A :=
  drop (length l - n)%nat l.

End PyStr.


(** ** Data model ([backend/models.py]) *)

Module Models.
Import PyStr.

Inductive AcademicLevel :=
  | elementary | middle_school | high_school | undergraduate | graduate.

Definition AcademicLevel_value (a : AcademicLevel) : str :=
  match a with
  | elementary => py "elementary"
  | middle_school => py "middle_school"
  | high_school => py "high_school"
  | undergraduate => py "undergraduate"
  | graduate => py "graduate"
  end.

Inductive StudyStyle := visual | auditory | kinesthetic | mixed.

Definition StudyStyle_value (s : StudyStyle) : str :=
  match s with
  | visual => py "visual"
  | auditory => py "auditory"
  | kinesthetic => py "kinesthetic"
  | mixed => py "mixed"
  end.

Inductive EmotionState :=
  | happy | excited | neutral | confused | stressed | sad | frustrated.

Definition EmotionState_value (e : EmotionState) : str :=
  match e with
  | happy => py "happy"
  | excited => py "excited"
  | neutral => py "neutral"
  | confused => py "confused"
  | stressed => py "stressed"
  | sad => py "sad"
  | frustrated => py "frustrated"
  end.

(** Iterating over the enum class yields its members in declaration
    order. *)
Definition EmotionState_members : list EmotionState :=
  [happy; excited; neutral; confused; stressed; sad; frustrated].

Inductive MessageRole := user | assistant | system.

Definition MessageRole_value (r : MessageRole) : str :=
  match r with
  | user => py "user"
  | assistant => py "assistant"
  | system => py "system"
  end.

#[global] Instance EmotionState_eq_dec : EqDecision EmotionState.
Proof. solve_decision. Defined.

#[global] Instance MessageRole_eq_dec : EqDecision MessageRole.
Proof. solve_decision. Defined.

Record LearningPreferences := {
  study_style : StudyStyle
}.

(** The fields of [User] the pipeline reads. *)
Record User := {
  user_id : str;
  name : str;
  academic_level : AcademicLevel;
  subjects : list str;
  learning_preferences : LearningPreferences;
  total_study_time : Z;
  conversations_count : Z
}.

Record Message := {
  role : MessageRole;
  content : str;
  emotion_detected : option EmotionState;
  understanding_level : option Z
}.

Record Conversation := {
  conversation_id : str;
  conv_user_id : str;
  session_type : str;
  messages : list Message;
  session_summary : option str;
  is_active : bool
}.

Record AcademicProgress := {
  progress_user_id : str;
  subject : str;
  topic : str;
  progress_level : Z
}.

(** An exam reminder; [exam_date] is the date as
    [strftime('%Y-%m-%d')] prints it. *)
Record Reminder := {
  reminder_subject : str;
  exam_date : str
}.

Record ChatResponse := {
  response : str;
  resp_emotion_detected : option EmotionState;
  resp_understanding_level : option Z;
  suggestions : list str;
  session_id : option str
}.

End Models.

(** ** The template table ([backend/config.py]) *)

Module Config.
Import PyStr.

(** A multi-line literal, given line by line. *)
Definition lines (ls : list string) : str :=
  join [newline] (List.map py ls).

Definition prompt_default : str :=
  lines
  [ "You are an empathetic AI tutor and friend for students. Your personality:";
    "";
    "🎯 CORE TRAITS:";
    "- Warm, encouraging, and genuinely caring";
    "- Use appropriate emojis to convey emotion";
    "- Ask thoughtful follow-up questions";
    "- Remember previous conversations and academic progress";
    "- Detect emotional states (stress, confusion, excitement) and respond appropriately";
    "";
    "📚 ACADEMIC SUPPORT:";
    "- Help with study planning and organization";
    "- Provide explanations in simple, relatable terms";
    "- Encourage active learning through questions";
    "- Track understanding levels (1-10 scale)";
    "- Suggest personalized study techniques";
    "";
    "💝 EMOTIONAL SUPPORT:";
    "- Acknowledge feelings and validate experiences";
    "- Offer encouragement during difficult times";
    "- Celebrate achievements, both big and small";
    "- Help manage academic stress and anxiety";
    "- Be a positive, supportive presence";
    "";
    "Remember: You're not just a tutor, you're a friend who happens to be really good at helping with academics!" ]%string.

Definition prompt_study_session : str :=
  lines
  [ "You are now in STUDY SESSION mode! 🎯";
    "";
    "Your role:";
    "- Keep the student focused and motivated";
    "- Provide bite-sized explanations when asked";
    "- Check understanding regularly";
    "- Offer encouragement and praise effort";
    "- Track study time and breaks";
    "- Suggest when to take breaks (every 25-30 mins)";
    "";
    "Stay energetic, supportive, and focused on learning goals!" ]%string.

Definition prompt_check_in : str :=
  lines
  [ "Time for a friendly check-in! 😊";
    "";
    "Your focus:";
    "- Ask about their day and how they're feeling";
    "- Inquire about recent studies and understanding";
    "- Check on upcoming exams or deadlines";
    "- Offer emotional support if needed";
    "- Help them plan their next study steps";
    "- Be genuinely interested in their well-being";
    "";
    "Keep it conversational and caring!" ]%string.

(** The dictionary literal, in source order. *)
Definition SYSTEM_PROMPTS_items : list (str * str) :=
  [ (py "default", prompt_default);
    (py "study_session", prompt_study_session);
    (py "check_in", prompt_check_in) ].

Definition SYSTEM_PROMPTS : gmap str str := list_to_map SYSTEM_PROMPTS_items.

End Config.

(** ** The world the services share, and code that can raise *)

Module Effects.
Import PyStr Models.

(** The entry [start_conversation] caches for a conversation; the
    clock reading it also stores is never read back and is left out. *)
Record SessionInfo := {
  si_user_id : str;
  si_session_type : str;
  message_count : Z
}.

(** - [sent]: the prompts handed to the completion service so far,
      oldest first;
    - [session_objects]: the dictionaries allocated for session entries,
      by address, so that two names for one dictionary see the same
      updates;
    - [active_sessions]: [ChatService.active_sessions], from conversation
      id to the address of its entry;
    - [conversations]: the conversation documents of the store, most
      recently updated first;
    - [academic_progress]: the progress documents of the store, in the
      order its query returns them;
    - [user_documents]: the ids that have a document in the collection
      of users. *)
Record World := {
  sent : list str;
  session_objects : gmap N SessionInfo;
  active_sessions : gmap str N;
  conversations : list Conversation;
  academic_progress : list AcademicProgress;
  user_documents : gset str
}.

Definition set_sent (v : list str) (w : World) : World :=
  {| sent := v; session_objects := session_objects w;
     active_sessions := active_sessions w; conversations := conversations w;
     academic_progress := academic_progress w;
     user_documents := user_documents w |}.

Definition set_session_objects (v : gmap N SessionInfo) (w : World) : World :=
  {| sent := sent w; session_objects := v;
     active_sessions := active_sessions w; conversations := conversations w;
     academic_progress := academic_progress w;
     user_documents := user_documents w |}.

Definition set_active_sessions (v : gmap str N) (w : World) : World :=
  {| sent := sent w; session_objects := session_objects w;
     active_sessions := v; conversations := conversations w;
     academic_progress := academic_progress w;
     user_documents := user_documents w |}.

Definition set_conversations (v : list Conversation) (w : World) : World :=
  {| sent := sent w; session_objects := session_objects w;
     active_sessions := active_sessions w; conversations := v;
     academic_progress := academic_progress w;
     user_documents := user_documents w |}.

Inductive exn := ApiError | ValueError | NotFound | ValidationError.

Inductive result (A : Type) :=
  | Ok (a : A)
  | Raise (e : exn).

Arguments Ok {A} a.
Arguments Raise {A} e.

(** A computation reads and updates the world and either returns or
    raises; what it did to the world before raising stays done. *)
Definition M (A : Type) : Type := World -> result A * World.

#[global] Instance M_ret : MRet M := fun A a w => (Ok a, w).

#[global] Instance M_bind : MBind M := fun A B f m w =>
  match m w with
  | (Ok a, w') => f a w'
  | (Raise e, w') => (Raise e, w')
  end.

Definition raise {A : Type} (e : exn) : M A := fun w => (Raise e, w).

(** [try: body except Exception as e: handler]. *)
Definition try_except {A : Type} (body : M A) (handler : exn -> M A) : M A :=
  fun w =>
    match body w with
    | (Ok a, w') => (Ok a, w')
    | (Raise e, w') => handler e w'
    end.

Definition get_world : M World := fun w => (Ok w, w).

Definition modify_world (f : World -> World) : M unit := fun w => (Ok tt, f w).

End Effects.

(** ** [services/gemini_service.py] *)

Module Gemini.
Import PyStr Models Config Effects.

(** The completion service: what [generate_content(prompt).text] gives,
    or the exception it raises, as a function of the prompts the service
    has been sent before and of the prompt. *)
Record GenerativeModel := {
  generate_content : list str -> str -> result str
}.

Record GeminiService := {
  model : GenerativeModel
}.

Definition _call_gemini_async (self : GeminiService) (prompt : str) : M str :=
  fun w =>
    (generate_content (model self) (sent w) prompt,
     set_sent (sent w ++ [prompt]) w).

Definition progress_line (progress : AcademicProgress) : str :=
  py "- " ++ subject progress ++ py ": " ++ topic progress
    ++ py " (Understanding: " ++ str_of_int (progress_level progress)
    ++ lines [ "/10)"; "" ]%string.

Definition user_context_of (user_profile : User) : str :=
  lines [ ""; "STUDENT PROFILE:"; "- Name: " ]%string
    ++ name user_profile
    ++ lines [ ""; "- Academic Level: " ]%string
    ++ title (replace_char 95 32 (AcademicLevel_value (academic_level user_profile)))
    ++ lines [ ""; "- Subjects: " ]%string
    ++ join (py ", ") (subjects user_profile)
    ++ lines [ ""; "- Study Style: " ]%string
    ++ StudyStyle_value (study_style (learning_preferences user_profile))
    ++ lines [ ""; "- Total Study Time: " ]%string
    ++ str_of_int (total_study_time user_profile)
    ++ lines [ " minutes"; "- Conversations: " ]%string
    ++ str_of_int (conversations_count user_profile)
    ++ lines [ ""; "" ]%string.

(** [SYSTEM_PROMPTS.get(context_type, SYSTEM_PROMPTS["default"])] *)
Definition base_prompt_of (context_type : str) : str :=
  default (SYSTEM_PROMPTS !!! py "default") (SYSTEM_PROMPTS !! context_type).

Definition _build_system_prompt (user_profile : User) (context_type : str)
    (academic_context : option (list AcademicProgress)) : str :=
  let base_prompt := base_prompt_of context_type in
  let user_context := user_context_of user_profile in
  let user_context :=
    match academic_context with
    | Some ((_ :: _) as academic_context) =>
        let recent_progress := lines [ ""; "RECENT ACADEMIC PROGRESS:"; "" ]%string in
        let recent_progress :=
          List.fold_left (fun recent_progress progress =>
                            recent_progress ++ progress_line progress)
                         (last_n 5 academic_context) recent_progress in
        user_context ++ recent_progress
    | _ => user_context
    end in
  base_prompt ++ lines [ ""; ""; "" ]%string ++ user_context.

(** [history[-10:] if len(history) > 10 else history]. *)
Definition recent_messages (history : list Message) : list Message :=
  if (10 <? length history)%nat then last_n 10 history else history.

Definition role_label (msg : Message) : str :=
  if decide (role msg = user) then py "Student" else py "AI Tutor".

(** One pass of the loop body of [_format_conversation_history]. *)
Definition format_step (formatted_history : str) (msg : Message) : str :=
  let formatted_history :=
    formatted_history ++ role_label msg ++ py ": " ++ content msg ++ [newline] in
  match emotion_detected msg with
  | Some emotion =>
      formatted_history ++ py "[Emotion detected: " ++ EmotionState_value emotion
        ++ lines [ "]"; "" ]%string
  | None => formatted_history
  end.

Definition current_cue (current_message : str) : str :=
  lines [ ""; "Student: " ]%string ++ current_message
    ++ lines [ ""; "AI Tutor:" ]%string.

Definition _format_conversation_history (history : list Message)
    (current_message : str) : str :=
  let formatted_history := lines [ "CONVERSATION HISTORY:"; "" ]%string in
  let formatted_history :=
    List.fold_left format_step (recent_messages history) formatted_history in
  formatted_history ++ current_cue current_message.

Definition emotion_prompt (user_message : str) : str :=
  lines
  [ "";
    "Analyze the emotional state of this student message. Consider context clues like:";
    "- Word choice and tone";
    "- Mentions of stress, confusion, excitement, frustration";
    "- Academic pressure indicators";
    "- Confidence or uncertainty signals";
    "";
    "Student message: " ]%string
  ++ dquote ++ user_message ++ dquote ++
  lines
  [ "";
    "";
    "Respond with ONLY one of these emotions: happy, excited, neutral, confused, stressed, sad, frustrated";
    "";
    "Emotion:" ]%string.

(** The loop over the enum: the first member whose value occurs in the
    text returns; [None] when the loop runs to its end. *)
Fixpoint emotion_loop (members : list EmotionState) (emotion_text : str)
    : option EmotionState :=
  match members with
  | [] => None
  | emotion :: rest =>
      if contains emotion_text (EmotionState_value emotion) then Some emotion
      else emotion_loop rest emotion_text
  end.

(** What [_detect_emotion] makes of the reply of the service. *)
Definition emotion_of_reply (emotion_response : str) : EmotionState :=
  let emotion_text := lower (strip emotion_response) in
  match emotion_loop EmotionState_members emotion_text with
  | Some emotion => emotion
  | None => neutral
  end.

Definition _detect_emotion (self : GeminiService) (user_message ai_response : str)
    : M (option EmotionState) :=
  try_except
    (emotion_response ← _call_gemini_async self (emotion_prompt user_message);
     mret (Some (emotion_of_reply emotion_response)))
    (fun _ => mret None).

Definition understanding_prompt (user_message ai_response : str) : str :=
  lines
  [ "";
    "Based on this conversation, estimate the student's understanding level of the topic being discussed.";
    "Consider:";
    "- Confidence in their responses";
    "- Questions they ask";
    "- Clarity of their explanations";
    "- Mistakes or misconceptions";
    "";
    "Student: " ]%string
  ++ dquote ++ user_message ++ dquote ++
  lines [ ""; "AI Response: " ]%string
  ++ dquote ++ ai_response ++ dquote ++
  lines [ ""; ""; "If no academic topic is being discussed, respond with " ]%string
  ++ dquote ++ py "N/A" ++ dquote ++
  lines
  [ ".";
    "Otherwise, respond with a number from 1-10 where:";
    "1-3: Struggling, needs basic help";
    "4-6: Developing understanding";
    "7-8: Good grasp, minor gaps";
    "9-10: Strong understanding";
    "";
    "Understanding level:" ]%string.

(** What [_extract_understanding_level] makes of the reply of the
    service. *)
Definition level_of_reply (level_response : str) : option Z :=
  let level_text := strip level_response in
  if contains level_text (py "N/A") || contains level_text (py "n/a") then None
  else
    let numbers := findall_digits level_text in
    match numbers with
    | first :: _ =>
        let level := int_of_digits first in
        Some (Z.max 1 (Z.min 10 level))
    | [] => None
    end.

Definition _extract_understanding_level (self : GeminiService)
    (user_message ai_response : str) : M (option Z) :=
  try_except
    (level_response ←
       _call_gemini_async self (understanding_prompt user_message ai_response);
     mret (level_of_reply level_response))
    (fun _ => mret None).

Definition _get_fallback_response : str :=
  lines
  [ "I'm having a bit of trouble connecting right now, but I'm still here for you! 😊 ";
    "        ";
    "Could you tell me what you'd like to work on today? Whether it's:";
    "- Reviewing a specific subject";
    "- Planning your study schedule  ";
    "- Just having a chat about how you're feeling";
    "";
    "I'm here to help however I can!" ]%string.

Definition full_prompt (user_message : str) (conversation_history : list Message)
    (user_profile : User) (context_type : str)
    (academic_context : option (list AcademicProgress)) : str :=
  let system_prompt :=
    _build_system_prompt user_profile context_type academic_context in
  let conversation_context :=
    _format_conversation_history conversation_history user_message in
  system_prompt ++ lines [ ""; ""; "" ]%string ++ conversation_context.

Definition generate_response (self : GeminiService) (user_message : str)
    (conversation_history : list Message) (user_profile : User)
    (context_type : str) (academic_context : option (list AcademicProgress))
    : M (str * option EmotionState * option Z) :=
  try_except
    (response ←
       _call_gemini_async self
         (full_prompt user_message conversation_history user_profile
                      context_type academic_context);
     emotion ← _detect_emotion self user_message response;
     understanding_level ←
       _extract_understanding_level self user_message response;
     mret (response, emotion, understanding_level))
    (fun _ => mret (_get_fallback_response, None, None)).

Definition summary_line (msg : Message) : str :=
  MessageRole_value (role msg) ++ py ": " ++ content msg.

Definition summary_prompt (messages : list Message) (user_profile : User) : str :=
  let conversation_text := join [newline] (List.map summary_line messages) in
  lines [ ""; "Create a concise summary of this tutoring conversation for " ]%string
  ++ name user_profile ++
  lines
  [ ".";
    "Focus on:";
    "- Main topics discussed";
    "- Student's emotional state and progress";
    "- Key learning achievements";
    "- Areas that need more attention";
    "- Overall session outcome";
    "";
    "Keep it encouraging and actionable.";
    "";
    "Conversation:";
    "" ]%string
  ++ conversation_text ++
  lines [ ""; ""; "Summary:" ]%string.

Definition summary_fallback : str := py "Study session completed successfully.".

Definition generate_session_summary (self : GeminiService)
    (messages : list Message) (user_profile : User) : M str :=
  try_except
    (summary ← _call_gemini_async self (summary_prompt messages user_profile);
     mret (strip summary))
    (fun _ => mret summary_fallback).

Definition suggestion_progress_line (p : AcademicProgress) : str :=
  py "- " ++ subject p ++ py ": " ++ topic p ++ py " (Level: "
    ++ str_of_int (progress_level p) ++ py "/10)".

Definition exam_line (exam : Reminder) : str :=
  reminder_subject exam ++ py " on " ++ exam_date exam.

Definition suggestions_prompt (user_profile : User)
    (academic_progress : list AcademicProgress)
    (upcoming_exams : option (list Reminder)) : str :=
  let progress_summary :=
    join [newline] (List.map suggestion_progress_line (last_n 10 academic_progress)) in
  let exam_context :=
    match upcoming_exams with
    | Some ((_ :: _) as upcoming_exams) =>
        lines [ ""; "Upcoming exams: " ]%string
          ++ join (py ", ") (List.map exam_line upcoming_exams)
    | _ => []
    end in
  lines [ ""; "Generate 3-5 personalized study suggestions for " ]%string
  ++ name user_profile ++
  lines [ "."; "Consider their:"; "- Academic level: " ]%string
  ++ AcademicLevel_value (academic_level user_profile) ++
  lines [ ""; "- Learning style: " ]%string
  ++ StudyStyle_value (study_style (learning_preferences user_profile)) ++
  lines [ ""; "- Recent progress: " ]%string
  ++ progress_summary ++ [newline] ++ exam_context ++
  lines
  [ "";
    "";
    "Provide specific, actionable suggestions that match their learning style and current needs.";
    "";
    "Suggestions:" ]%string.

Definition is_marked (line : str) : bool :=
  startswith line (py "-") || startswith line (py "•") || startswith line (py "1.").

(** One pass of the loop over the lines of the reply. *)
Definition suggestion_step (suggestions : list str) (line : str) : list str :=
  let line := strip line in
  if negb (bool_decide (line = [])) && is_marked line then
    let suggestion := strip (lstrip (py "-•1234567890. ") line) in
    if negb (bool_decide (suggestion = [])) then suggestions ++ [suggestion]
    else suggestions
  else suggestions.

(** What [generate_study_suggestions] makes of the reply of the service. *)
Definition suggestions_of_reply (suggestions_response : str) : list str :=
  let suggestions :=
    List.fold_left suggestion_step (split newline suggestions_response) [] in
  take 5 suggestions.

Definition suggestions_fallback : list str :=
  [ py "Review your recent notes and highlight key concepts";
    py "Practice active recall by explaining topics out loud";
    py "Take regular breaks during study sessions";
    py "Create visual summaries or mind maps for complex topics" ].

Definition generate_study_suggestions (self : GeminiService) (user_profile : User)
    (academic_progress : list AcademicProgress)
    (upcoming_exams : option (list Reminder)) : M (list str) :=
  try_except
    (suggestions_response ←
       _call_gemini_async self
         (suggestions_prompt user_profile academic_progress upcoming_exams);
     mret (suggestions_of_reply suggestions_response))
    (fun _ => mret suggestions_fallback).

End Gemini.

(** ** [services/firestore_service.py], as far as the chat service
       uses it *)

Module Firestore.
Import PyStr Models Effects.

(** [Message(...)] validates its fields ([content] of 1 to 5000
    characters, [understanding_level] from 1 to 10) and raises when one
    is out of range. *)
Definition Message_new (role : MessageRole) (content : str)
    (emotion_detected : option EmotionState) (understanding_level : option Z)
    : M Message :=
  if ((1 <=? len content) && (len content <=? 5000))%Z
     && match understanding_level with
        | Some l => (1 <=? l)%Z && (l <=? 10)%Z
        | None => true
        end
  then mret {| role := role; content := content;
               emotion_detected := emotion_detected;
               understanding_level := understanding_level |}
  else raise ValidationError.

Definition has_id (conversation_id0 : str) (c : Conversation) : bool :=
  bool_decide (conversation_id c = conversation_id0).

(** [document(id).set(...)]: the new document replaces any document of
    that id, and is the most recently updated one. [new_id] is the
    identifier [uuid4()] draws. *)
Definition create_conversation (new_id : str) (user_id session_type : str)
    : M Conversation :=
  let conversation :=
    {| conversation_id := new_id; conv_user_id := user_id;
       session_type := session_type; messages := [];
       session_summary := None; is_active := true |} in
  _ ← modify_world (fun w =>
         set_conversations
           (conversation :: List.filter (fun c => negb (has_id new_id c)) (conversations w))
           w);
  mret conversation.

Definition append_message (message : Message) (c : Conversation) : Conversation :=
  {| conversation_id := conversation_id c; conv_user_id := conv_user_id c;
     session_type := session_type c; messages := messages c ++ [message];
     session_summary := session_summary c; is_active := is_active c |}.

(** [document(id).update(...)] raises when there is no such document.
    The stored form of a message carries the time it was built, so the
    array union never finds it already stored and appends it; the update
    also makes the conversation the most recently updated one. *)
Definition add_message (conversation_id0 : str) (message : Message) : M unit :=
  w ← get_world;
  match List.find (has_id conversation_id0) (conversations w) with
  | None => raise NotFound
  | Some c =>
      modify_world
        (set_conversations
           (append_message message c
              :: List.filter (fun c => negb (has_id conversation_id0 c)) (conversations w)))
  end.

(** The user's conversations, most recently updated first, at most
    [limit] of them. *)
Definition get_conversation_history (user_id : str) : M (list Conversation) :=
  w ← get_world;
  mret (take 10 (List.filter (fun c => bool_decide (conv_user_id c = user_id))
                             (conversations w))).

Definition get_user_progress (user_id : str) : M (list AcademicProgress) :=
  w ← get_world;
  mret (List.filter (fun p => bool_decide (progress_user_id p = user_id))
                    (academic_progress w)).

(** [document(user_id).update(...)] raises when the user has no
    document. The time it writes is not read by the chat service, so the
    world stays as it is. *)
Definition update_user_activity (user_id : str) : M unit :=
  w ← get_world;
  if decide (user_id ∈ user_documents w) then mret tt else raise NotFound.

End Firestore.

(** ** [backend/chat_service.py] *)

Module Chat.
Import PyStr Models Effects Gemini Firestore.

Section ChatService.

(** The service instances the module imports. *)
Variable gemini_service : GeminiService.

Definition start_conversation (new_id : str) (user_id : str) (session_type : str)
    : M Conversation :=
  try_except
    (conversation ← create_conversation new_id user_id session_type;
     w ← get_world;
     let addr := fresh (dom (session_objects w)) in
     _ ← modify_world (fun w =>
            set_active_sessions
              (<[conversation_id conversation := addr]> (active_sessions w))
              (set_session_objects
                 (<[addr := {| si_user_id := user_id;
                               si_session_type := session_type;
                               message_count := 0 |}]> (session_objects w))
                 w));
     mret conversation)
    (fun e => raise e).

(** [session_info.get(key, default)], where [session_info] is either the
    address of a cached entry or, when the conversation has none, a new
    empty dictionary that nothing else can reach. *)
Definition session_info_get {A : Type} (session_info : option N)
    (field : SessionInfo -> A) (dflt : A) : M A :=
  w ← get_world;
  mret (match session_info with
        | Some addr =>
            match session_objects w !! addr with
            | Some entry => field entry
            | None => dflt
            end
        | None => dflt
        end).

Definition add_two (entry : SessionInfo) : SessionInfo :=
  {| si_user_id := si_user_id entry; si_session_type := si_session_type entry;
     message_count := message_count entry + 2 |}.

(** [if conversation_id in self.active_sessions:
       self.active_sessions[conversation_id]["message_count"] += 2] *)
Definition update_session_info (conversation_id0 : str) : M unit :=
  w ← get_world;
  match active_sessions w !! conversation_id0 with
  | Some addr =>
      modify_world (set_session_objects (alter add_two addr (session_objects w)))
  | None => mret tt
  end.

(** [message_count > 0 and message_count % 6 == 0] *)
Definition suggestion_gate (message_count : Z) : bool :=
  (0 <? message_count)%Z && (message_count mod 6 =? 0)%Z.

Definition trouble_response (conversation_id0 : str) : ChatResponse :=
  {| response :=
       py "I'm having trouble right now, but I'm still here to help! Could you try asking that again?";
     resp_emotion_detected := None;
     resp_understanding_level := None;
     suggestions := [];
     session_id := Some conversation_id0 |}.

Definition process_message (conversation_id0 : str) (user_message : str)
    (user_profile : User) : M ChatResponse :=
  try_except
    (conversations ← get_conversation_history (user_id user_profile);
     match List.find (has_id conversation_id0) conversations with
     | None => raise ValueError
     | Some current_conversation =>
         academic_progress ← get_user_progress (user_id user_profile);
         w ← get_world;
         let session_info := active_sessions w !! conversation_id0 in
         session_type ← session_info_get session_info si_session_type (py "general");
         '(ai_response, emotion, understanding_level) ←
           generate_response gemini_service user_message
             (messages current_conversation) user_profile session_type
             (Some academic_progress);
         user_msg ← Message_new user user_message emotion understanding_level;
         _ ← add_message conversation_id0 user_msg;
         ai_msg ← Message_new assistant ai_response None None;
         _ ← add_message conversation_id0 ai_msg;
         _ ← update_session_info conversation_id0;
         message_count ← session_info_get session_info message_count 0%Z;
         suggestions ←
           (if suggestion_gate message_count then
              generate_study_suggestions gemini_service user_profile
                (match academic_progress with
                 | [] => []
                 | _ :: _ => last_n 5 academic_progress
                 end)
                None
            else mret []);
         _ ← update_user_activity (user_id user_profile);
         mret {| response := ai_response;
                 resp_emotion_detected := emotion;
                 resp_understanding_level := understanding_level;
                 suggestions := suggestions;
                 session_id := Some conversation_id0 |}
     end)
    (fun _ => mret (trouble_response conversation_id0)).

(** The document update [end_session] issues itself: the summary, the
    flag and the time of update of one conversation; it raises when
    there is no such document. *)
Definition close_conversation (summary : str) (c : Conversation) : Conversation :=
  {| conversation_id := conversation_id c; conv_user_id := conv_user_id c;
     session_type := session_type c; messages := messages c;
     session_summary := Some summary; is_active := false |}.

Definition update_summary (conversation_id0 : str) (summary : str) : M unit :=
  w ← get_world;
  match List.find (has_id conversation_id0) (conversations w) with
  | None => raise NotFound
  | Some c =>
      modify_world
        (set_conversations
           (close_conversation summary c
              :: List.filter (fun c => negb (has_id conversation_id0 c)) (conversations w)))
  end.

(** [if conversation_id in self.active_sessions:
       del self.active_sessions[conversation_id]] *)
Definition remove_session (conversation_id0 : str) : M unit :=
  w ← get_world;
  match active_sessions w !! conversation_id0 with
  | Some _ =>
      modify_world (set_active_sessions (delete conversation_id0 (active_sessions w)))
  | None => mret tt
  end.

Definition end_session (conversation_id0 : str) (user_profile : User) : M str :=
  try_except
    (conversations ← get_conversation_history (user_id user_profile);
     match List.find (has_id conversation_id0) conversations with
     | None => mret (py "Session ended.")
     | Some conversation =>
         summary ← generate_session_summary gemini_service (messages conversation)
                     user_profile;
         _ ← update_summary conversation_id0 summary;
         _ ← remove_session conversation_id0;
         mret summary
     end)
    (fun _ => mret (py "Session ended successfully.")).

(** The ids of the cached sessions of a user. The list comes in the
    order the map enumerates its keys; the dictionary of the source
    enumerates them in order of insertion, which the map does not
    record. *)
Definition get_active_sessions (user_id0 : str) (w : World) : list str :=
  List.map fst
    (List.filter
       (fun item =>
          match session_objects w !! snd item with
          | Some info => bool_decide (si_user_id info = user_id0)
          | None => false
          end)
       (map_to_list (active_sessions w))).

End ChatService.

End Chat.

(** ** The callers: [backend/analytics.py] and [backend/main.py] *)

Module Analytics.
Import PyStr Models Effects Gemini.

Definition recommendations_fallback : list str :=
  [ py "Continue your regular study routine";
    py "Take breaks every 25-30 minutes during study sessions";
    py "Review topics where understanding is below 7/10";
    py "Prepare early for upcoming exams" ].

(** [AnalyticsService._generate_recommendations]; the conversations it
    is handed are not used. *)
Definition _generate_recommendations (gemini_service : GeminiService)
    (user_profile : User) (progress_data : list AcademicProgress)
    (conversations : list Conversation) (reminders : list Reminder)
    : M (list str) :=
  try_except
    (recommendations ←
       generate_study_suggestions gemini_service user_profile progress_data
         (Some reminders);
     mret recommendations)
    (fun _ => mret recommendations_fallback).

End Analytics.

Module Main.
Import PyStr Models Effects Gemini Firestore Chat.

Definition chat_error_response (conversation_id0 : option str) : ChatResponse :=
  {| response :=
       py "I'm having a bit of trouble right now, but I'm still here to help! Could you try asking that again?";
     resp_emotion_detected := None;
     resp_understanding_level := None;
     suggestions := [];
     session_id := conversation_id0 |}.

(** The route [/api/chat/message], after authentication. A missing or
    empty conversation id opens a conversation first; [new_id] is the
    identifier drawn for it. The handler answers with the conversation
    id as it stands when the exception arrives. *)
Definition send_message (gemini_service : GeminiService) (new_id : str)
    (message : str) (conversation_id0 : option str) (session_type0 : str)
    (current_user : User) : M ChatResponse :=
  match conversation_id0 with
  | Some ((_ :: _) as given) =>
      try_except
        (process_message gemini_service given message current_user)
        (fun _ => mret (chat_error_response (Some given)))
  | _ =>
      fun w =>
        match start_conversation new_id (user_id current_user) session_type0 w with
        | (Ok conversation, w1) =>
            try_except
              (process_message gemini_service (conversation_id conversation)
                 message current_user)
              (fun _ => mret (chat_error_response
                                (Some (conversation_id conversation))))
              w1
        | (Raise _, w1) => (Ok (chat_error_response conversation_id0), w1)
        end
  end.

End Main.

(** ** The notions the properties are stated with *)

Module Spec.
Import PyStr Models Config Effects Gemini Firestore Chat.

(** [sub] occurs in [s]. *)
Definition occurs (sub s : str) : Prop :=
  exists pre post, s = pre ++ sub ++ post.

(** The lower-case word [label] occurs in [reply] in some casing. *)
Definition occurs_ci (label reply : str) : Prop :=
  exists pre mid post, reply = pre ++ mid ++ post /\ lower mid = label.

(** [e'] is declared before [e] in the enum. *)
Definition declared_before (e' e : EmotionState) : Prop :=
  exists l1 l2, EmotionState_members = l1 ++ e :: l2 /\ In e' l1.

(** The rendering of a run of turns, as the loop of
    [_format_conversation_history] appends it. *)
Definition render_turns (turns : list Message) : str :=
  List.fold_left format_step turns [].

(** The world after one more prompt has gone out. *)
Definition after_prompt (prompt : str) (w : World) : World :=
  set_sent (sent w ++ [prompt]) w.

(** What the service answers to [prompt] in world [w]. *)
Definition answer (self : GeminiService) (w : World) (prompt : str) : result str :=
  generate_content (model self) (sent w) prompt.

(** Recognises the prompts of [generate_study_suggestions] by the way
    they open. *)
Definition is_suggestions_prompt (prompt : str) : bool :=
  startswith prompt
    (lines [ ""; "Generate 3-5 personalized study suggestions for " ]%string).

(** Suggestion generation fired between [w] and [w']: one of the
    prompts that went out in between asks for suggestions. *)
Definition fired (w w' : World) : bool :=
  List.existsb is_suggestions_prompt (drop (length (sent w)) (sent w')).

(** The running count the session cache keeps for a conversation. *)
Definition running_count (conversation_id0 : str) (w : World) : Z :=
  match active_sessions w !! conversation_id0 with
  | Some addr =>
      match session_objects w !! addr with
      | Some entry => message_count entry
      | None => 0
      end
  | None => 0
  end.

(** The number of turns the store holds for a conversation. *)
Definition stored_turns (conversation_id0 : str) (w : World) : Z :=
  match List.find (has_id conversation_id0) (conversations w) with
  | Some c => len (messages c)
  | None => 0
  end.

(** The progress facts [get_user_progress] returns for a user. *)
Definition progress_of (user_id0 : str) (w : World) : list AcademicProgress :=
  List.filter (fun p => bool_decide (progress_user_id p = user_id0))
              (academic_progress w).

(** A session: the utterances are processed one after the other in the
    same conversation; for each, whether suggestion generation fired,
    and the running count and the stored turns right after it. *)
Fixpoint process_all (gemini_service : GeminiService) (conversation_id0 : str)
    (user_profile : User) (utterances : list str) (w : World)
    : list (bool * Z * Z) * World :=
  match utterances with
  | [] => ([], w)
  | utterance :: rest =>
      let w1 := snd (process_message gemini_service conversation_id0 utterance
                       user_profile w) in
      let '(observed, w2) :=
        process_all gemini_service conversation_id0 user_profile rest w1 in
      ((fired w w1, running_count conversation_id0 w1,
        stored_turns conversation_id0 w1) :: observed, w2)
  end.

(** The session entries after [update_session_info], and the count the
    cadence gate then reads for a conversation. *)
Definition bumped (conversation_id0 : str) (w : World) : gmap N SessionInfo :=
  match active_sessions w !! conversation_id0 with
  | Some addr => alter add_two addr (session_objects w)
  | None => session_objects w
  end.

Definition count_after (conversation_id0 : str) (w : World) : Z :=
  match active_sessions w !! conversation_id0 with
  | Some addr =>
      match session_objects w !! addr with
      | Some entry => message_count entry + 2
      | None => 0
      end
  | None => 0
  end.


(** What a line of the suggestion reply contributes: its text without
    the leading marker characters, when the line is marked and something
    is left of it. *)
Definition cleaned_suggestion (line : str) : option str :=
  let line := strip line in
  if negb (bool_decide (line = [])) && is_marked line then
    let suggestion := strip (lstrip (py "-•1234567890. ") line) in
    if negb (bool_decide (suggestion = [])) then Some suggestion else None
  else None.


(** The session type [process_message] reads for a conversation: the
    one of its cached entry, and "general" when it has none. *)
Definition cached_session_type (conversation_id0 : str) (w : World) : str :=
  match active_sessions w !! conversation_id0 with
  | Some addr =>
      match session_objects w !! addr with
      | Some entry => si_session_type entry
      | None => py "general"
      end
  | None => py "general"
  end.

(** The prompt a turn sends for its reply. *)
Definition reply_prompt (conversation_id0 user_message : str) (user_profile : User)
    (conv : Conversation) (w : World) : str :=
  full_prompt user_message (messages conv) user_profile
    (cached_session_type conversation_id0 w)
    (Some (progress_of (user_id user_profile) w)).

(** The two messages a turn stores. *)
Definition user_turn (user_message : str) (emotion : option EmotionState)
    (level : option Z) : Message :=
  {| role := user; content := user_message; emotion_detected := emotion;
     understanding_level := level |}.

Definition assistant_turn (reply : str) : Message :=
  {| role := assistant; content := reply; emotion_detected := None;
     understanding_level := None |}.

(** What a turn that got to its end answers: the response it built
    when the user has a document, the trouble response when the update of
    the user's activity raises for want of one. *)
Definition turn_answer (conversation_id0 : str) (user_profile : User) (w : World)
    (resp : ChatResponse) : ChatResponse :=
  if decide (user_id user_profile ∈ user_documents w) then resp
  else trouble_response conversation_id0.

(** The conversation the user's history yields for an id. *)
Definition found_in_history (conversation_id0 : str) (user_profile : User)
    (w : World) : option Conversation :=
  List.find (has_id conversation_id0)
    (take 10 (List.filter
                (fun c => bool_decide (conv_user_id c = user_id user_profile))
                (conversations w))).

(** The store without the documents of an id. *)
Definition others (conversation_id0 : str) (w : World) : list Conversation :=
  List.filter (fun c => negb (has_id conversation_id0 c)) (conversations w).

End Spec.

(** ** Students, services and worlds to run the pipeline on *)

Module Scenarios.
Import PyStr Models Config Effects Gemini Firestore Chat Spec.

Definition ada (user_id0 : str) (style : StudyStyle) (minutes count : Z) : User :=
  {| user_id := user_id0; name := py "Ada"; academic_level := undergraduate;
     subjects := [py "Math"; py "Physics"];
     learning_preferences := {| study_style := style |};
     total_study_time := minutes; conversations_count := count |}.

Definition confused_turn : Message :=
  {| role := user; content := py "I am lost"; emotion_detected := Some confused;
     understanding_level := None |}.

Definition empty_world : World :=
  {| sent := []; session_objects := ∅; active_sessions := ∅;
     conversations := []; academic_progress := []; user_documents := ∅ |}.

(** A service that answers its first prompt and fails from then on. *)
Definition answers_once : GeminiService :=
  {| model := {| generate_content := fun before _ =>
                   match before with
                   | [] => Ok (py "A derivative is a rate of change.")
                   | _ :: _ => Raise ApiError
                   end |} |}.

(** A service that fails on every prompt. *)
Definition always_fails : GeminiService :=
  {| model := {| generate_content := fun _ _ => Raise ApiError |} |}.

(** A service that answers every prompt with the same short text. *)
Definition always_answers : GeminiService :=
  {| model := {| generate_content := fun _ _ => Ok (py "- Keep going") |} |}.

(** Ten progress facts of one user, in the order the store returns
    them, and the world whose store holds them. *)
Definition fact (n : Z) : AcademicProgress :=
  {| progress_user_id := py "u1"; subject := py "Math";
     topic := py "Topic " ++ str_of_int n; progress_level := 7 |}.

Definition ten_facts : list AcademicProgress :=
  List.map fact [1; 2; 3; 4; 5; 6; 7; 8; 9; 10]%Z.

Definition world_with_facts : World :=
  {| sent := []; session_objects := ∅; active_sessions := ∅;
     conversations := []; academic_progress := ten_facts;
     user_documents := {[ py "u1" ]} |}.

(** The world in which a session of Ada has just processed two
    utterances, and the third turn of that session. *)
Definition two_turns_in : World :=
  snd (process_all always_answers (py "c1") (ada (py "u1") mixed 0 0)
         [py "What is a limit?"; py "And a derivative?"]
         (snd (start_conversation (py "c1") (py "u1") (py "general")
                 world_with_facts))).


(** The conversation the third turn finds. *)
Definition third_turn_conversation : Conversation :=
  match conversations two_turns_in with
  | c :: _ => c
  | [] => {| conversation_id := []; conv_user_id := []; session_type := [];
             messages := []; session_summary := None; is_active := false |}
  end.

(** Eleven sessions of one user, opened one after the other, "c0"
    first. *)
Definition eleven_sessions : World :=
  List.fold_left
    (fun w n =>
       snd (start_conversation (py "c" ++ str_of_int n) (py "u1") (py "general") w))
    [0; 1; 2; 3; 4; 5; 6; 7; 8; 9; 10]%Z empty_world.



Definition one_session : World :=
  snd (start_conversation (py "c1") (py "u1") (py "study_session") empty_world).



(** A service that answers every prompt with a rough estimate. *)
Definition estimates : GeminiService :=
  {| model := {| generate_content := fun _ _ => Ok (py " about 12 or 8 ") |} |}.

End Scenarios.

Import PyStr Models Config Effects Gemini Firestore Chat Analytics Main Spec Scenarios.

(** ** Strings *)

Section StringLemmas.

Lemma startswith_spec (s p : str) :
  startswith s p = true <-> exists post, s = p ++ post.
Proof.
  revert s; induction p as [|a p IH]; intros s; simpl.
  - split; [intros _; exists s; reflexivity | intros _; destruct s; reflexivity].
  - destruct s as [|b s]; simpl.
    + split; [discriminate | intros [post H]; discriminate].
    + rewrite andb_true_iff, N.eqb_eq, IH. split.
      * intros [-> [post ->]]. exists post; reflexivity.
      * intros [post H]. injection H as -> ->. split; [reflexivity | eauto].
Qed.

Lemma contains_spec (s sub : str) : contains s sub = true <-> occurs sub s.
Proof.
  unfold occurs. induction s as [|c s IH]; cbn [contains].
  - rewrite orb_false_r, startswith_spec. split.
    + intros [post H]. exists [], post. exact H.
    + intros [pre [post H]]. destruct pre as [|x pre]; [|discriminate].
      exists post. exact H.
  - rewrite orb_true_iff, startswith_spec, IH. split.
    + intros [[post H] | [pre [post H]]].
      * exists [], post. exact H.
      * exists (c :: pre), post. simpl. rewrite H. reflexivity.
    + intros [pre [post H]]. destruct pre as [|x pre].
      * left. exists post. exact H.
      * right. simpl in H. injection H as -> ->. exists pre, post. reflexivity.
Qed.

Lemma contains_false_spec (s sub : str) :
  contains s sub = false <-> ~ occurs sub s.
Proof.
  rewrite <- contains_spec. destruct (contains s sub); split; easy.
Qed.

Lemma lstrip_by_suffix (p : N -> bool) (s : str) :
  exists ws, s = ws ++ lstrip_by p s.
Proof.
  induction s as [|c s [ws IH]]; simpl.
  - exists []. reflexivity.
  - destruct (p c).
    + exists (c :: ws). simpl. rewrite <- IH. reflexivity.
    + exists []. reflexivity.
Qed.

Lemma rstrip_by_prefix (p : N -> bool) (s : str) :
  exists ws, s = rstrip_by p s ++ ws.
Proof.
  unfold rstrip_by. destruct (lstrip_by_suffix p (List.rev s)) as [ws H].
  exists (List.rev ws).
  rewrite <- List.rev_app_distr, <- H, List.rev_involutive. reflexivity.
Qed.

(** Stripping keeps every occurrence of a word that neither starts nor
    ends with a stripped character. *)
Lemma lstrip_by_keeps (p : N -> bool) (pre post : str) (c : N) (mid : str) :
  p c = false ->
  exists pre', lstrip_by p (pre ++ (c :: mid) ++ post) = pre' ++ (c :: mid) ++ post.
Proof.
  intros Hc. induction pre as [|a pre [pre' IH]]; simpl.
  - rewrite Hc. exists []. reflexivity.
  - destruct (p a).
    + exists pre'. exact IH.
    + exists (a :: pre). reflexivity.
Qed.

Lemma rstrip_by_keeps (p : N -> bool) (pre post : str) (mid : str) (z : N) :
  p z = false ->
  exists post', rstrip_by p (pre ++ (mid ++ [z]) ++ post) = pre ++ (mid ++ [z]) ++ post'.
Proof.
  intros Hz. unfold rstrip_by.
  rewrite !List.rev_app_distr. simpl. rewrite <- !List.app_assoc. simpl.
  destruct (lstrip_by_keeps p (List.rev post) (List.rev pre) z (List.rev mid) Hz)
    as [post' H].
  simpl in H. rewrite H.
  exists (List.rev post').
  rewrite List.rev_app_distr. simpl. rewrite List.rev_app_distr.
  rewrite !List.rev_involutive, <- !List.app_assoc. reflexivity.
Qed.

Lemma strip_occurs (sub s : str) : occurs sub (strip s) -> occurs sub s.
Proof.
  intros [pre [post H]]. unfold strip in H.
  destruct (lstrip_by_suffix isspace s) as [ws1 H1].
  destruct (rstrip_by_prefix isspace (lstrip_by isspace s)) as [ws2 H2].
  exists (ws1 ++ pre), (post ++ ws2).
  rewrite H1 at 1. rewrite H2, H, <- !List.app_assoc. reflexivity.
Qed.

Lemma occurs_strip (a z : N) (mid pre post : str) :
  isspace a = false -> isspace z = false ->
  forall word, word = a :: mid -> (exists mid', word = mid' ++ [z]) ->
  exists pre' post', strip (pre ++ word ++ post) = pre' ++ word ++ post'.
Proof.
  intros Ha Hz word Hw [mid' Hw']. unfold strip.
  destruct (lstrip_by_keeps isspace pre post a mid Ha) as [pre' H].
  rewrite Hw, H, <- Hw, Hw'.
  destruct (rstrip_by_keeps isspace pre' post mid' z Hz) as [post' H'].
  exists pre', post'. exact H'.
Qed.

Lemma lower_app_inv (s a b : str) :
  lower s = a ++ b -> exists a' b', s = a' ++ b' /\ lower a' = a /\ lower b' = b.
Proof.
  unfold lower. intros H. apply List.map_eq_app in H.
  destruct H as [a' [b' [-> [Ha Hb]]]]. eauto.
Qed.

Lemma letter_not_space (c : N) :
  is_lower (lower_char c) = true -> isspace c = false.
Proof.
  unfold is_lower, lower_char, is_upper, isspace. intros H.
  assert (Hr : (65 <= c <= 122)%N).
  { destruct ((65 <=? c)%N && (c <=? 90)%N) eqn:E.
    - apply andb_true_iff in E. rewrite !N.leb_le in E. lia.
    - apply andb_true_iff in H. rewrite !N.leb_le in H. lia. }
  repeat match goal with
         | |- context [(?x <=? ?y)%N] => destruct (N.leb_spec x y); try lia
         | |- context [(?x =? ?y)%N] => destruct (N.eqb_spec x y); try lia
         end; reflexivity.
Qed.

End StringLemmas.

(** ** Emotion classification *)

Section Emotion.

(** Every label starts and ends with a lower-case letter. *)
Lemma label_shape (e : EmotionState) :
  exists a mid mid' z,
    EmotionState_value e = a :: mid /\ EmotionState_value e = mid' ++ [z] /\
    is_lower a = true /\ is_lower z = true.
Proof.
  exists (List.hd 0%N (EmotionState_value e)), (List.tl (EmotionState_value e)),
         (List.removelast (EmotionState_value e)),
         (List.last (EmotionState_value e) 0%N).
  destruct e; repeat split; reflexivity.
Qed.

(** Searching the stripped, lower-cased reply for a label finds exactly
    the occurrences of the label in the reply, in any casing. *)
Lemma contains_label_iff (e : EmotionState) (reply : str) :
  contains (lower (strip reply)) (EmotionState_value e) = true
  <-> occurs_ci (EmotionState_value e) reply.
Proof.
  rewrite contains_spec. split.
  - intros [pre [post H]].
    apply lower_app_inv in H. destruct H as [pre' [rest [H [_ Hrest]]]].
    apply lower_app_inv in Hrest. destruct Hrest as [mid [post' [-> [Hmid _]]]].
    destruct (strip_occurs mid reply) as [p1 [p2 Hr]].
    { exists pre', post'. exact H. }
    exists p1, mid, p2. split; assumption.
  - intros [pre [mid [post [-> Hmid]]]].
    destruct (label_shape e) as [a [t [t' [z [Hhd [Htl [Ha Hz]]]]]]].
    assert (Hfirst : exists a0 mid0, mid = a0 :: mid0 /\ isspace a0 = false).
    { rewrite Hhd in Hmid. destruct mid as [|a0 mid0]; [discriminate|].
      simpl in Hmid. injection Hmid as Ha0 _. exists a0, mid0. split; [reflexivity|].
      apply letter_not_space. rewrite Ha0. exact Ha. }
    assert (Hlast : exists mid1 z0, mid = mid1 ++ [z0] /\ isspace z0 = false).
    { rewrite Htl in Hmid. apply lower_app_inv in Hmid.
      destruct Hmid as [mid1 [y [-> [_ Hy]]]].
      destruct y as [|z0 [|? ?]]; try discriminate.
      simpl in Hy. injection Hy as Hz0. exists mid1, z0. split; [reflexivity|].
      apply letter_not_space. rewrite Hz0. exact Hz. }
    destruct Hfirst as [a0 [mid0 [Hm0 Ha0]]]. destruct Hlast as [mid1 [z0 [Hm1 Hz0]]].
    destruct (occurs_strip a0 z0 mid0 pre post Ha0 Hz0 mid Hm0) as [pre' [post' Hs]].
    { exists mid1. exact Hm1. }
    rewrite Hs. exists (lower pre'), (lower post').
    unfold lower in *. rewrite !List.map_app, Hmid. reflexivity.
Qed.

(** The loop returns the first member of the list whose label occurs. *)
Lemma emotion_loop_Some (members : list EmotionState) (text : str) (e : EmotionState) :
  emotion_loop members text = Some e ->
  exists l1 l2, members = l1 ++ e :: l2
    /\ contains text (EmotionState_value e) = true
    /\ forall e', In e' l1 -> contains text (EmotionState_value e') = false.
Proof.
  induction members as [|m members IH]; simpl; [discriminate|].
  destruct (contains text (EmotionState_value m)) eqn:Hm.
  - intros [= <-]. exists [], members. repeat split; [exact Hm | intros e' []].
  - intros H. destruct (IH H) as [l1 [l2 [-> [He Hl1]]]].
    exists (m :: l1), l2. repeat split; [exact He|].
    intros e' [<- | Hin]; [exact Hm | exact (Hl1 e' Hin)].
Qed.

Lemma emotion_loop_None (members : list EmotionState) (text : str) :
  emotion_loop members text = None ->
  forall e', In e' members -> contains text (EmotionState_value e') = false.
Proof.
  induction members as [|m members IH]; simpl; [intros _ e' []|].
  destruct (contains text (EmotionState_value m)) eqn:Hm; [discriminate|].
  intros H e' [<- | Hin]; [exact Hm | exact (IH H e' Hin)].
Qed.

Lemma all_members (e : EmotionState) : In e EmotionState_members.
Proof. destruct e; simpl; tauto. Qed.

(** The parse of a reply: the first label, in declaration order, that
    occurs in the reply in any casing, and [neutral] when none does. *)
Lemma emotion_of_reply_spec (reply : str) :
  (occurs_ci (EmotionState_value (emotion_of_reply reply)) reply
   /\ forall e', declared_before e' (emotion_of_reply reply) ->
                 ~ occurs_ci (EmotionState_value e') reply)
  \/ (emotion_of_reply reply = neutral
      /\ forall e', ~ occurs_ci (EmotionState_value e') reply).
Proof.
  unfold emotion_of_reply.
  destruct (emotion_loop EmotionState_members (lower (strip reply))) as [e|] eqn:Hloop.
  - left. destruct (emotion_loop_Some _ _ _ Hloop) as [l1 [l2 [Hsplit [He Hl1]]]].
    split; [apply contains_label_iff; exact He|].
    intros e' [k1 [k2 [Hsplit' Hin]]] Hocc.
    assert (k1 = l1) as ->.
    { clear - Hsplit Hsplit'. rewrite Hsplit in Hsplit'.
      assert (Hnd : List.NoDup EmotionState_members)
        by (repeat constructor; simpl; intuition discriminate).
      rewrite Hsplit in Hnd. clear Hsplit.
      revert k1 Hsplit'. induction l1 as [|x l1 IH]; intros k1 Hk.
      - destruct k1 as [|y k1]; [reflexivity|].
        simpl in Hk. injection Hk as <- Hk. exfalso.
        inversion Hnd as [|? ? Hnot _]. apply Hnot. rewrite Hk.
        apply List.in_or_app. right. left. reflexivity.
      - destruct k1 as [|y k1]; simpl in Hk.
        + injection Hk as -> Hk. exfalso.
          inversion Hnd as [|? ? Hnot _]. apply Hnot.
          apply List.in_or_app. right. left. reflexivity.
        + injection Hk as <- Hk. f_equal. apply IH; [|exact Hk].
          simpl in Hnd. inversion Hnd; assumption. }
    apply contains_label_iff in Hocc. rewrite (Hl1 e' Hin) in Hocc. discriminate.
  - right. split; [reflexivity|].
    intros e' Hocc. apply contains_label_iff in Hocc.
    rewrite (emotion_loop_None _ _ Hloop e' (all_members e')) in Hocc. discriminate.
Qed.

End Emotion.

(** ** Running the operations of the completion pipeline *)

Section Runs.

Variable self : GeminiService.

Lemma detect_emotion_run (user_message ai_response : str) (w : World) :
  _detect_emotion self user_message ai_response w =
  (Ok (match answer self w (emotion_prompt user_message) with
       | Ok reply => Some (emotion_of_reply reply)
       | Raise _ => None
       end),
   after_prompt (emotion_prompt user_message) w).
Proof.
  unfold _detect_emotion, try_except, mbind, M_bind, _call_gemini_async, answer, after_prompt.
  destruct (generate_content _ _ _); reflexivity.
Qed.

Lemma extract_understanding_level_run (user_message ai_response : str) (w : World) :
  _extract_understanding_level self user_message ai_response w =
  (Ok (match answer self w (understanding_prompt user_message ai_response) with
       | Ok reply => level_of_reply reply
       | Raise _ => None
       end),
   after_prompt (understanding_prompt user_message ai_response) w).
Proof.
  unfold _extract_understanding_level, try_except, mbind, M_bind,
    _call_gemini_async, answer, after_prompt.
  destruct (generate_content _ _ _); reflexivity.
Qed.

Lemma generate_response_run (user_message : str) (history : list Message)
    (user_profile : User) (context_type : str)
    (academic_context : option (list AcademicProgress)) (w : World) :
  let prompt :=
    full_prompt user_message history user_profile context_type academic_context in
  generate_response self user_message history user_profile context_type
    academic_context w =
  match answer self w prompt with
  | Ok reply =>
      let w1 := after_prompt prompt w in
      let w2 := after_prompt (emotion_prompt user_message) w1 in
      (Ok (reply,
           match answer self w1 (emotion_prompt user_message) with
           | Ok r => Some (emotion_of_reply r)
           | Raise _ => None
           end,
           match answer self w2 (understanding_prompt user_message reply) with
           | Ok r => level_of_reply r
           | Raise _ => None
           end),
       after_prompt (understanding_prompt user_message reply) w2)
  | Raise _ => (Ok (_get_fallback_response, None, None), after_prompt prompt w)
  end.
Proof.
  intros prompt. unfold generate_response, try_except.
  unfold mbind at 1. unfold M_bind at 1.
  unfold _call_gemini_async at 1. fold prompt. fold (answer self w prompt).
  fold (after_prompt prompt w).
  destruct (answer self w prompt) as [reply|e]; [|reflexivity].
  unfold mbind at 1. unfold M_bind at 1. rewrite detect_emotion_run.
  unfold mbind at 1. unfold M_bind at 1. rewrite extract_understanding_level_run.
  reflexivity.
Qed.

Lemma generate_session_summary_run (messages : list Message) (user_profile : User)
    (w : World) :
  generate_session_summary self messages user_profile w =
  (Ok (match answer self w (summary_prompt messages user_profile) with
       | Ok summary => strip summary
       | Raise _ => summary_fallback
       end),
   after_prompt (summary_prompt messages user_profile) w).
Proof.
  unfold generate_session_summary, try_except, mbind, M_bind,
    _call_gemini_async, answer, after_prompt.
  destruct (generate_content _ _ _); reflexivity.
Qed.

Lemma generate_study_suggestions_run (user_profile : User)
    (progress : list AcademicProgress) (upcoming_exams : option (list Reminder))
    (w : World) :
  generate_study_suggestions self user_profile progress upcoming_exams w =
  (Ok (match answer self w (suggestions_prompt user_profile progress upcoming_exams) with
       | Ok reply => suggestions_of_reply reply
       | Raise _ => suggestions_fallback
       end),
   after_prompt (suggestions_prompt user_profile progress upcoming_exams) w).
Proof.
  unfold generate_study_suggestions, try_except, mbind, M_bind,
    _call_gemini_async, answer, after_prompt.
  destruct (generate_content _ _ _); reflexivity.
Qed.

End Runs.

(** ** The understanding level *)

(** A reply that holds the marker in upper case or in lower case parses
    to "absent", whatever digits it holds. *)
Lemma level_of_reply_marker (reply : str) :
  occurs (py "N/A") reply \/ occurs (py "n/a") reply ->
  level_of_reply reply = None.
Proof.
  intros Hmarker. unfold level_of_reply.
  assert (H : contains (strip reply) (py "N/A") || contains (strip reply) (py "n/a")
              = true); [|rewrite H; reflexivity].
  apply orb_true_iff.
  destruct Hmarker as [[pre [post ->]] | [pre [post ->]]]; [left | right];
    apply contains_spec.
  - destruct (occurs_strip 78 65 (py "/A") pre post eq_refl eq_refl
                (py "N/A") eq_refl) as [pre' [post' ->]].
    { exists (py "N/"). reflexivity. }
    exists pre', post'. reflexivity.
  - destruct (occurs_strip 110 97 (py "/a") pre post eq_refl eq_refl
                (py "n/a") eq_refl) as [pre' [post' ->]].
    { exists (py "n/"). reflexivity. }
    exists pre', post'. reflexivity.
Qed.

(** A parsed level lies between 1 and 10. *)
Lemma level_of_reply_range (reply : str) (level : Z) :
  level_of_reply reply = Some level -> (1 <= level <= 10)%Z.
Proof.
  unfold level_of_reply.
  destruct (contains _ _ || contains _ _); [discriminate|].
  destruct (findall_digits _); [discriminate|].
  intros [= <-]. lia.
Qed.

Lemma findall_digits_go_skip (pre s : str) :
  Forall (fun c => is_digit c = false) pre ->
  findall_digits_go [] (pre ++ s) = findall_digits_go [] s.
Proof.
  induction 1 as [|c pre Hc _ IH]; [reflexivity|].
  cbn [app findall_digits_go]. rewrite Hc. exact IH.
Qed.

Lemma findall_digits_go_run (cur run s : str) :
  Forall (fun c => is_digit c = true) run ->
  findall_digits_go cur (run ++ s) = findall_digits_go (cur ++ run) s.
Proof.
  intros Hrun. revert cur. induction Hrun as [|c run Hc _ IH]; intros cur.
  - rewrite List.app_nil_r. reflexivity.
  - cbn [app findall_digits_go]. rewrite Hc, IH, <- List.app_assoc. reflexivity.
Qed.

(** The scan returns first the first maximal run of digits of the
    text. *)
Lemma findall_digits_first (pre run post : str) :
  Forall (fun c => is_digit c = false) pre ->
  Forall (fun c => is_digit c = true) run ->
  run <> [] ->
  match post with [] => True | c :: _ => is_digit c = false end ->
  exists later, findall_digits (pre ++ run ++ post) = run :: later.
Proof.
  intros Hpre Hrun Hne Hpost. unfold findall_digits.
  rewrite (findall_digits_go_skip pre _ Hpre), (findall_digits_go_run [] run post Hrun).
  cbn [app]. destruct run as [|d run]; [congruence|].
  destruct post as [|c post]; cbn [findall_digits_go].
  - eexists. reflexivity.
  - rewrite Hpost. eexists. reflexivity.
Qed.

(** Without a marker in upper or lower case, the level is the number
    the first run of digits of the stripped reply denotes, pulled into
    the range from 1 to 10. *)
Lemma level_of_reply_first_run (reply pre run post : str) :
  contains (strip reply) (py "N/A") = false ->
  contains (strip reply) (py "n/a") = false ->
  strip reply = pre ++ run ++ post ->
  Forall (fun c => is_digit c = false) pre ->
  Forall (fun c => is_digit c = true) run ->
  run <> [] ->
  match post with [] => True | c :: _ => is_digit c = false end ->
  level_of_reply reply = Some (Z.max 1 (Z.min 10 (int_of_digits run))).
Proof.
  intros H1 H2 Hsplit Hpre Hrun Hne Hpost. unfold level_of_reply.
  rewrite H1, H2. cbn [orb]. rewrite Hsplit.
  destruct (findall_digits_first pre run post Hpre Hrun Hne Hpost) as [later ->].
  reflexivity.
Qed.

Example level_of_reply_clamps :
  level_of_reply (py "Level: 0") = Some 1%Z
  /\ level_of_reply (py " about 7 or 8 ") = Some 7%Z
  /\ level_of_reply (py "12/10!") = Some 10%Z
  /\ level_of_reply (py "-5") = Some 5%Z
  /\ level_of_reply (py "no idea") = None
  /\ level_of_reply (py "n/a, or maybe 4") = None.
Proof. vm_compute. repeat split; reflexivity. Qed.

(** C1. A reply that spells the marker in mixed case and then gives a
    digit: the marker occurs in the reply up to casing, yet the parse is
    the digit, not "absent". The parse recognises the spellings "N/A"
    and "n/a" only. *)
Theorem level_of_reply_mixed_case_marker :
  occurs_ci (py "n/a") (py "N/a 5") /\ level_of_reply (py "N/a 5") = Some 5%Z.
Proof.
  split; [|reflexivity].
  exists [], (py "N/a"), (py " 5"). split; reflexivity.
Qed.

(** ** Emotion *)

(** C2. When the completion call returns a reply, the detected emotion
    is the first label, in declaration order, that occurs in the reply in
    any casing, and [neutral] when no label occurs; when the call raises,
    the result is absent. *)
Theorem detect_emotion_first_label (self : GeminiService)
    (user_message ai_response : str) (w : World) :
  match answer self w (emotion_prompt user_message) with
  | Ok reply =>
      exists e,
        fst (_detect_emotion self user_message ai_response w) = Ok (Some e)
        /\ ((occurs_ci (EmotionState_value e) reply
             /\ forall e', declared_before e' e ->
                           ~ occurs_ci (EmotionState_value e') reply)
            \/ (e = neutral
                /\ forall e', ~ occurs_ci (EmotionState_value e') reply))
  | Raise _ => fst (_detect_emotion self user_message ai_response w) = Ok None
  end.
Proof.
  rewrite detect_emotion_run.
  destruct (answer self w (emotion_prompt user_message)) as [reply|err]; simpl.
  - exists (emotion_of_reply reply). split; [reflexivity|].
    apply emotion_of_reply_spec.
  - reflexivity.
Qed.

(** ** The reply survives a failed emotion call *)

(** C3. When the reply call succeeds and the emotion call raises,
    [generate_response] returns the reply of the reply call, with the
    emotion absent. *)
Theorem generate_response_keeps_reply (self : GeminiService) (user_message : str)
    (history : list Message) (user_profile : User) (context_type : str)
    (academic_context : option (list AcademicProgress)) (w : World)
    (reply : str) (err : exn) :
  let prompt :=
    full_prompt user_message history user_profile context_type academic_context in
  answer self w prompt = Ok reply ->
  answer self (after_prompt prompt w) (emotion_prompt user_message) = Raise err ->
  exists level,
    fst (generate_response self user_message history user_profile context_type
           academic_context w) = Ok (reply, None, level).
Proof.
  intros prompt Hreply Hemotion.
  rewrite generate_response_run. fold prompt. rewrite Hreply. simpl.
  rewrite Hemotion. eexists. reflexivity.
Qed.

Lemma generate_response_keeps_reply_witness :
  exists level,
    fst (generate_response answers_once (py "What is a derivative?") []
           (ada (py "u1") mixed 0 0) (py "study_session") None empty_world)
    = Ok (py "A derivative is a rate of change.", None, level).
Proof.
  apply (generate_response_keeps_reply answers_once (py "What is a derivative?") []
           (ada (py "u1") mixed 0 0) (py "study_session") None empty_world
           (py "A derivative is a rate of change.") ApiError);
    reflexivity.
Defined.

(** ** The context window *)

(** C4. The window is the last [min L 10] turns of the history, in
    their order, and windowing a window gives it back. *)
Theorem recent_messages_window (history : list Message) :
  recent_messages history = drop (length history - 10) history
  /\ length (recent_messages history) = Nat.min (length history) 10
  /\ (exists older, history = older ++ recent_messages history)
  /\ recent_messages (recent_messages history) = recent_messages history.
Proof.
  assert (Heq : recent_messages history = drop (length history - 10) history).
  { unfold recent_messages, last_n.
    destruct (Nat.ltb_spec 10 (length history)) as [H|H]; [reflexivity|].
    replace (length history - 10)%nat with 0%nat by lia. reflexivity. }
  assert (Hlen : length (recent_messages history) = Nat.min (length history) 10).
  { rewrite Heq, length_drop. lia. }
  repeat split.
  - exact Heq.
  - exact Hlen.
  - exists (take (length history - 10) history). rewrite Heq.
    symmetry. apply take_drop.
  - unfold recent_messages at 1.
    destruct (Nat.ltb_spec 10 (length (recent_messages history))) as [H|H];
      [lia | reflexivity].
Qed.

(** ** Parsing suggestions *)

(** The reply of the scenario parses to its two marked lines. *)
Example suggestions_of_reply_scenario :
  suggestions_of_reply
    (lines [ "1. Take breaks"; "- Review notes"; "Random prose" ]%string)
  = [ py "Take breaks"; py "Review notes" ].
Proof. vm_compute. reflexivity. Qed.

Lemma fold_suggestion_step (ls : list str) (acc : list str) :
  List.fold_left suggestion_step ls acc = acc ++ omap cleaned_suggestion ls.
Proof.
  revert acc. induction ls as [|l ls IH]; intros acc.
  - cbn. rewrite List.app_nil_r. reflexivity.
  - cbn [List.fold_left omap list_omap]. rewrite IH.
    unfold suggestion_step, cleaned_suggestion.
    destruct (negb (bool_decide (strip l = [])) && is_marked (strip l));
      [|reflexivity].
    destruct (negb (bool_decide (strip (lstrip _ (strip l)) = [])));
      [|reflexivity].
    rewrite <- List.app_assoc. reflexivity.
Qed.

(** The parsed list: the cleaned texts of the marked lines, in the
    order of the reply, five at most. *)
Lemma suggestions_of_reply_spec (reply : str) :
  suggestions_of_reply reply = take 5 (omap cleaned_suggestion (split newline reply))
  /\ (length (suggestions_of_reply reply) <= 5)%nat.
Proof.
  unfold suggestions_of_reply. rewrite fold_suggestion_step. cbn [app].
  split; [reflexivity|]. rewrite length_take. lia.
Qed.

(** C6. A numbered list: only the line numbered 1 is kept, the lines
    numbered 2 and 3 are dropped although they carry a numeric marker of
    the same style. *)
Theorem suggestions_of_reply_numbered_list :
  suggestions_of_reply
    (lines [ "1. Take breaks"; "2. Review notes"; "3. Sleep well" ]%string)
  = [ py "Take breaks" ].
Proof. vm_compute. reflexivity. Qed.

(** Cleaning a kept line drops every leading marker character, digits
    of the text included. *)
Example suggestions_of_reply_leading_digits :
  suggestions_of_reply (lines [ "- 2 hours of practice daily" ]%string)
  = [ py "hours of practice daily" ].
Proof. vm_compute. reflexivity. Qed.

(** ** Composing the prompt *)

Lemma prompt_default_lookup : SYSTEM_PROMPTS !!! py "default" = prompt_default.
Proof. vm_compute. reflexivity. Qed.

(** C7. The template is the table's entry for the mode when there is
    one, and otherwise the template the mode "general" gets, which is the
    table's default entry; the system prompt starts with it. In the
    scenario the prompt is the study-session template, the profile block
    with the humanized level and the joined subjects, the empty history
    and the cue. *)
Theorem build_system_prompt_template :
  (forall mode,
     base_prompt_of mode =
     match SYSTEM_PROMPTS !! mode with
     | Some template => template
     | None => base_prompt_of (py "general")
     end)
  /\ base_prompt_of (py "general") = prompt_default
  /\ base_prompt_of (py "study_session") = prompt_study_session
  /\ (forall user_profile mode academic_context,
        exists rest,
          _build_system_prompt user_profile mode academic_context =
          base_prompt_of mode ++ rest)
  /\ (forall user_id0 style minutes count academic_context,
        academic_context = None \/ academic_context = Some [] ->
        full_prompt (py "What is a derivative?") []
          (ada user_id0 style minutes count) (py "study_session") academic_context
        = prompt_study_session
          ++ lines [ ""; ""; "";
                     "STUDENT PROFILE:";
                     "- Name: Ada";
                     "- Academic Level: Undergraduate";
                     "- Subjects: Math, Physics";
                     "- Study Style: " ]%string
          ++ StudyStyle_value style
          ++ lines [ ""; "- Total Study Time: " ]%string
          ++ str_of_int minutes
          ++ lines [ " minutes"; "- Conversations: " ]%string
          ++ str_of_int count
          ++ lines [ ""; ""; ""; "CONVERSATION HISTORY:"; "" ]%string
          ++ lines [ ""; "Student: What is a derivative?"; "AI Tutor:" ]%string).
Proof.
  assert (Hgeneral : base_prompt_of (py "general") = prompt_default).
  { unfold base_prompt_of. rewrite prompt_default_lookup.
    replace (SYSTEM_PROMPTS !! py "general") with (@None str)
      by (vm_compute; reflexivity).
    reflexivity. }
  split; [|split; [|split; [|split]]].
  - intros mode. rewrite Hgeneral. unfold base_prompt_of.
    rewrite prompt_default_lookup.
    destruct (SYSTEM_PROMPTS !! mode); reflexivity.
  - exact Hgeneral.
  - unfold base_prompt_of.
    replace (SYSTEM_PROMPTS !! py "study_session") with (Some prompt_study_session)
      by (vm_compute; reflexivity).
    reflexivity.
  - intros user_profile mode academic_context. unfold _build_system_prompt.
    eexists. reflexivity.
  - intros user_id0 style minutes count academic_context Hempty.
    assert (Hsys : _build_system_prompt (ada user_id0 style minutes count)
                     (py "study_session") academic_context
                   = base_prompt_of (py "study_session") ++ lines [ ""; ""; "" ]%string
                     ++ user_context_of (ada user_id0 style minutes count)).
    { destruct Hempty as [-> | ->]; unfold _build_system_prompt; cbv zeta;
        reflexivity. }
    assert (Hb : base_prompt_of (py "study_session") = prompt_study_session).
    { unfold base_prompt_of.
      replace (SYSTEM_PROMPTS !! py "study_session") with (Some prompt_study_session)
        by (vm_compute; reflexivity).
      reflexivity. }
    unfold full_prompt. cbv zeta. rewrite Hsys, Hb.
    rewrite <- !List.app_assoc. f_equal.
    unfold user_context_of, _format_conversation_history, recent_messages, current_cue.
    simpl List.fold_left.
    cbn [name academic_level subjects learning_preferences study_style
         total_study_time conversations_count ada].
    rewrite <- !List.app_assoc.
    generalize (StudyStyle_value style), (str_of_int minutes), (str_of_int count).
    intros s1 s2 s3. vm_compute. reflexivity.
Qed.

Lemma build_system_prompt_template_witness :
  full_prompt (py "What is a derivative?") []
    (ada (py "u1") mixed 0 0) (py "study_session") (Some [])
  = prompt_study_session
    ++ lines [ ""; ""; "";
               "STUDENT PROFILE:";
               "- Name: Ada";
               "- Academic Level: Undergraduate";
               "- Subjects: Math, Physics";
               "- Study Style: " ]%string
    ++ StudyStyle_value mixed
    ++ lines [ ""; "- Total Study Time: " ]%string
    ++ str_of_int 0
    ++ lines [ " minutes"; "- Conversations: " ]%string
    ++ str_of_int 0
    ++ lines [ ""; ""; ""; "CONVERSATION HISTORY:"; "" ]%string
    ++ lines [ ""; "Student: What is a derivative?"; "AI Tutor:" ]%string.
Proof.
  apply (proj2 (proj2 (proj2 (proj2 build_system_prompt_template)))).
  right. reflexivity.
Defined.

(** ** Failed completion calls *)

(** C8. No operation raises, whatever the service does; when the call
    an operation makes raises, the summary is the fixed sentence, the
    suggestions are the fixed four, and the reply is the fixed apology. *)
Theorem completion_failure_defaults (self : GeminiService) (w : World)
    (messages : list Message) (user_profile : User)
    (progress : list AcademicProgress) (upcoming_exams : option (list Reminder))
    (user_message : str) (history : list Message) (context_type : str)
    (academic_context : option (list AcademicProgress)) :
  ((exists summary,
      fst (generate_session_summary self messages user_profile w) = Ok summary)
   /\ (exists suggestions,
         fst (generate_study_suggestions self user_profile progress upcoming_exams w)
         = Ok suggestions)
   /\ (exists r,
         fst (generate_response self user_message history user_profile context_type
                academic_context w) = Ok r))
  /\ (forall err,
        answer self w (summary_prompt messages user_profile) = Raise err ->
        fst (generate_session_summary self messages user_profile w)
        = Ok (py "Study session completed successfully."))
  /\ (forall err,
        answer self w (suggestions_prompt user_profile progress upcoming_exams)
        = Raise err ->
        fst (generate_study_suggestions self user_profile progress upcoming_exams w)
        = Ok [ py "Review your recent notes and highlight key concepts";
               py "Practice active recall by explaining topics out loud";
               py "Take regular breaks during study sessions";
               py "Create visual summaries or mind maps for complex topics" ])
  /\ (forall err,
        answer self w
          (full_prompt user_message history user_profile context_type academic_context)
        = Raise err ->
        fst (generate_response self user_message history user_profile context_type
               academic_context w)
        = Ok (_get_fallback_response, None, None)).
Proof.
  rewrite generate_session_summary_run, generate_study_suggestions_run,
    generate_response_run.
  cbv zeta. repeat split.
  - eexists. reflexivity.
  - eexists. reflexivity.
  - destruct (answer self w (full_prompt _ _ _ _ _)); eexists; reflexivity.
  - intros err ->. reflexivity.
  - intros err ->. reflexivity.
  - intros err ->. reflexivity.
Qed.

Lemma completion_failure_defaults_witness :
  fst (generate_session_summary always_fails [] (ada (py "u1") mixed 0 0) empty_world)
  = Ok (py "Study session completed successfully.").
Proof.
  apply (proj1 (proj2 (completion_failure_defaults always_fails empty_world []
                         (ada (py "u1") mixed 0 0) [] None (py "hello") []
                         (py "general") None)) ApiError).
  reflexivity.
Defined.

(** ** Rendering the window *)

Lemma format_step_app (acc : str) (msg : Message) :
  format_step acc msg = acc ++ format_step [] msg.
Proof.
  unfold format_step. destruct (emotion_detected msg);
    rewrite ?List.app_nil_l, <- ?List.app_assoc; reflexivity.
Qed.

Lemma fold_format_step (turns : list Message) (acc : str) :
  List.fold_left format_step turns acc = acc ++ render_turns turns.
Proof.
  unfold render_turns. revert acc.
  induction turns as [|m turns IH]; intros acc; simpl.
  - rewrite List.app_nil_r. reflexivity.
  - rewrite IH, (IH (format_step [] m)), format_step_app, <- List.app_assoc.
    reflexivity.
Qed.

Lemma render_turns_app (older newer : list Message) :
  render_turns (older ++ newer) = render_turns older ++ render_turns newer.
Proof.
  unfold render_turns at 1. rewrite List.fold_left_app, fold_format_step.
  reflexivity.
Qed.

(** C10. In the rendered history, the line of a windowed turn is
    followed at once by the annotation of its detected emotion when it
    has one, and by the next turn when it has none. *)
Theorem format_history_annotates (history : list Message) (current_message : str)
    (older newer : list Message) (msg : Message) :
  recent_messages history = older ++ msg :: newer ->
  _format_conversation_history history current_message =
    lines [ "CONVERSATION HISTORY:"; "" ]%string
    ++ render_turns older
    ++ ((if decide (role msg = user) then py "Student" else py "AI Tutor")
          ++ py ": " ++ content msg ++ [newline])
    ++ match emotion_detected msg with
       | Some emotion =>
           py "[Emotion detected: " ++ EmotionState_value emotion
             ++ lines [ "]"; "" ]%string
       | None => []
       end
    ++ render_turns newer
    ++ lines [ ""; "Student: " ]%string ++ current_message
    ++ lines [ ""; "AI Tutor:" ]%string.
Proof.
  intros Hwin. unfold _format_conversation_history. cbv zeta.
  rewrite fold_format_step, Hwin.
  change (older ++ msg :: newer) with (older ++ [msg] ++ newer).
  rewrite !render_turns_app, <- !List.app_assoc.
  f_equal. f_equal.
  unfold render_turns at 1. cbn [List.fold_left]. unfold format_step, role_label.
  destruct (emotion_detected msg);
    rewrite ?List.app_nil_l, ?List.app_nil_r, <- ?List.app_assoc; reflexivity.
Qed.

Lemma format_history_annotates_witness :
  _format_conversation_history [ confused_turn ] (py "Help")
  = lines [ "CONVERSATION HISTORY:";
            "Student: I am lost";
            "[Emotion detected: confused]";
            "";
            "Student: Help";
            "AI Tutor:" ]%string.
Proof.
  rewrite (format_history_annotates [ confused_turn ] (py "Help") [] []
             confused_turn eq_refl).
  vm_compute. reflexivity.
Defined.

(** ** One turn of the chat service *)

Section Turn.

Variable gemini_service : GeminiService.

Lemma bind_run {A B : Type} (m : M A) (f : A -> M B) (w : World) :
  (m ≫= f) w =
  match m w with
  | (Ok a, w') => f a w'
  | (Raise e, w') => (Raise e, w')
  end.
Proof. reflexivity. Qed.

Lemma update_user_activity_run (user_id0 : str) (w : World) :
  update_user_activity user_id0 w
  = (if decide (user_id0 ∈ user_documents w) then Ok tt else Raise NotFound, w).
Proof.
  unfold update_user_activity. rewrite bind_run. unfold get_world.
  destruct (decide (user_id0 ∈ user_documents w)); reflexivity.
Qed.




Lemma is_suggestions_prompt_emotion (user_message : str) :
  is_suggestions_prompt (emotion_prompt user_message) = false.
Proof. vm_compute. reflexivity. Qed.

Lemma is_suggestions_prompt_understanding (user_message ai_response : str) :
  is_suggestions_prompt (understanding_prompt user_message ai_response) = false.
Proof. vm_compute. reflexivity. Qed.




Lemma find_in_history (conversation_id0 user_id0 : str) (w : World)
    (conv : Conversation) :
  List.find (has_id conversation_id0)
    (take 10 (List.filter (fun c => bool_decide (conv_user_id c = user_id0))
                          (conversations w))) = Some conv ->
  exists stored, List.find (has_id conversation_id0) (conversations w) = Some stored.
Proof.
  intros H. apply List.find_some in H. destruct H as [Hin Hid].
  destruct (List.find (has_id conversation_id0) (conversations w)) as [stored|] eqn:E.
  - exists stored. reflexivity.
  - exfalso. pose proof (List.find_none _ _ E conv) as Hnone.
    rewrite Hnone in Hid; [discriminate|].
    apply list_elem_of_In in Hin. apply (subseteq_take 10) in Hin.
    apply list_elem_of_In in Hin. apply List.filter_In in Hin. apply Hin.
Qed.

Lemma last_five_or_none (progress : list AcademicProgress) :
  match progress with
  | [] => []
  | _ :: _ => last_n 5 progress
  end = last_n 5 progress.
Proof. destruct progress; reflexivity. Qed.

Lemma Message_new_run (role0 : MessageRole) (content0 : str)
    (emotion : option EmotionState) (level : option Z) (w : World) :
  (1 <= len content0 <= 5000)%Z ->
  match level with Some l => (1 <= l <= 10)%Z | None => True end ->
  Message_new role0 content0 emotion level w =
  (Ok {| role := role0; content := content0; emotion_detected := emotion;
         understanding_level := level |}, w).
Proof.
  intros [H1 H2] Hl. unfold Message_new.
  destruct (Z.leb_spec 1 (len content0)); [|lia].
  destruct (Z.leb_spec (len content0) 5000); [|lia].
  destruct level as [l|]; [|reflexivity].
  destruct (Z.leb_spec 1 l); [|lia]. destruct (Z.leb_spec l 10); [|lia].
  reflexivity.
Qed.

Lemma add_message_run (conversation_id0 : str) (message : Message) (w : World)
    (stored : Conversation) :
  List.find (has_id conversation_id0) (conversations w) = Some stored ->
  add_message conversation_id0 message w =
  (Ok tt,
   set_conversations
     (append_message message stored
        :: List.filter (fun c => negb (has_id conversation_id0 c)) (conversations w))
     w).
Proof.
  intros H. unfold add_message. rewrite bind_run. unfold get_world. rewrite H.
  reflexivity.
Qed.

Lemma has_id_append (conversation_id0 : str) (message : Message) (c : Conversation) :
  has_id conversation_id0 (append_message message c) = has_id conversation_id0 c.
Proof. reflexivity. Qed.

Lemma filter_without_twice (conversation_id0 : str) (l : list Conversation) :
  List.filter (fun c => negb (has_id conversation_id0 c))
    (List.filter (fun c => negb (has_id conversation_id0 c)) l)
  = List.filter (fun c => negb (has_id conversation_id0 c)) l.
Proof.
  induction l as [|c l IH]; [reflexivity|]. cbn [List.filter].
  destruct (negb (has_id conversation_id0 c)) eqn:E; [|exact IH].
  cbn [List.filter]. rewrite E, IH. reflexivity.
Qed.






End Turn.

(** ** The cadence of suggestions *)






(** ** The progress facts of the suggestion prompt *)


Lemma last_n_length {A : Type} (n : nat) (l : list A) :
  length (last_n n l) = Nat.min n (length l).
Proof. unfold last_n. rewrite length_drop. lia. Qed.




(** ** Stripped texts *)

Section Strip.

Lemma lstrip_by_head (p : N -> bool) (s : str) :
  match lstrip_by p s with
  | [] => True
  | c :: _ => p c = false
  end.
Proof.
  induction s as [|c s IH]; cbn [lstrip_by]; [exact I|].
  destruct (p c) eqn:E; [exact IH | exact E].
Qed.

Lemma lstrip_by_fix (p : N -> bool) (s : str) :
  match s with [] => True | c :: _ => p c = false end ->
  lstrip_by p s = s.
Proof. destruct s as [|c s]; cbn [lstrip_by]; [reflexivity|]. intros ->. reflexivity. Qed.

Lemma rstrip_by_idem (p : N -> bool) (s : str) :
  rstrip_by p (rstrip_by p s) = rstrip_by p s.
Proof.
  unfold rstrip_by. rewrite List.rev_involutive.
  rewrite (lstrip_by_fix p (lstrip_by p (List.rev s))); [reflexivity|].
  apply lstrip_by_head.
Qed.

(** Stripping a stripped text changes nothing. *)
Lemma strip_idem (s : str) : strip (strip s) = strip s.
Proof.
  unfold strip. set (u := lstrip_by isspace s).
  rewrite (lstrip_by_fix isspace (rstrip_by isspace u)); [apply rstrip_by_idem|].
  destruct (rstrip_by_prefix isspace u) as [ws Hu].
  pose proof (lstrip_by_head isspace s) as Hhead. fold u in Hhead.
  destruct (rstrip_by isspace u) as [|c t]; [exact I|].
  rewrite Hu in Hhead. exact Hhead.
Qed.

End Strip.

(** ** More on the parsed suggestions *)

(** X1. Whatever the reply, the parsed suggestions are at most five,
    none of them is empty, none carries surrounding whitespace, and each
    is the cleaned text of a line of the reply. *)
Theorem suggestions_are_clean (reply : str) :
  (length (suggestions_of_reply reply) <= 5)%nat
  /\ Forall (fun suggestion =>
               suggestion <> [] /\ strip suggestion = suggestion
               /\ exists line, In line (split newline reply)
                               /\ cleaned_suggestion line = Some suggestion)
            (suggestions_of_reply reply).
Proof.
  destruct (suggestions_of_reply_spec reply) as [Hspec Hlen].
  split; [exact Hlen|].
  rewrite Hspec. apply Forall_forall. intros suggestion Hin.
  apply (subseteq_take 5) in Hin. apply list_elem_of_omap in Hin.
  destruct Hin as [line [Hline Hclean]].
  assert (Hshape : suggestion <> [] /\ strip suggestion = suggestion).
  { unfold cleaned_suggestion in Hclean.
    destruct (negb (bool_decide (strip line = [])) && is_marked (strip line));
      [|discriminate].
    destruct (bool_decide (strip (lstrip _ (strip line)) = [])) eqn:E;
      [discriminate|].
    cbn [negb] in Hclean. injection Hclean as <-.
    split; [apply bool_decide_eq_false in E; exact E | apply strip_idem]. }
  destruct Hshape as [Hne Hstrip]. repeat split; try assumption.
  exists line. split; [apply list_elem_of_In; exact Hline | exact Hclean].
Qed.

(** A marker that follows a tab survives the cleaning. *)
Example suggestion_keeps_second_marker :
  suggestions_of_reply (py "-" ++ [9%N] ++ py "- Sleep well") = [ py "- Sleep well" ].
Proof. vm_compute. reflexivity. Qed.

(** ** The parts of the reply prompt *)

Lemma fold_progress_lines (facts : list AcademicProgress) (acc : str) :
  List.fold_left (fun recent_progress progress =>
                    recent_progress ++ progress_line progress) facts acc
  = acc ++ List.concat (List.map progress_line facts).
Proof.
  revert acc. induction facts as [|f facts IH]; intros acc; cbn [List.fold_left
    List.map List.concat].
  - rewrite List.app_nil_r. reflexivity.
  - rewrite IH, <- List.app_assoc. reflexivity.
Qed.

Lemma render_turns_concat (turns : list Message) :
  render_turns turns = List.concat (List.map (format_step []) turns).
Proof.
  induction turns as [|m turns IH]; [reflexivity|].
  change (m :: turns) with ([m] ++ turns).
  rewrite render_turns_app, IH. cbn [List.map List.concat app].
  unfold render_turns. cbn [List.fold_left]. reflexivity.
Qed.

(** X2. The reply prompt is, in this order: the template, the profile
    block, the progress block, the history and the cue. The progress
    block is there only when there is at least one fact, and then it is
    the header and one line for each of the last five facts (or fewer);
    the history is one block for each turn of the window. *)
Theorem full_prompt_parts (user_message : str) (history : list Message)
    (user_profile : User) (context_type : str)
    (academic_context : option (list AcademicProgress)) :
  let facts := match academic_context with Some l => l | None => [] end in
  full_prompt user_message history user_profile context_type academic_context
  = base_prompt_of context_type
    ++ lines [ ""; ""; "" ]%string
    ++ user_context_of user_profile
    ++ match facts with
       | [] => []
       | _ :: _ =>
           lines [ ""; "RECENT ACADEMIC PROGRESS:"; "" ]%string
             ++ List.concat (List.map progress_line (last_n 5 facts))
       end
    ++ lines [ ""; ""; "" ]%string
    ++ lines [ "CONVERSATION HISTORY:"; "" ]%string
    ++ List.concat (List.map (format_step []) (recent_messages history))
    ++ lines [ ""; "Student: " ]%string ++ user_message
    ++ lines [ ""; "AI Tutor:" ]%string
  /\ length (last_n 5 facts) = Nat.min 5 (length facts)
  /\ length (recent_messages history) = Nat.min (length history) 10.
Proof.
  intros facts. split; [|split].
  - unfold full_prompt, _build_system_prompt, _format_conversation_history,
      current_cue. cbv zeta.
    rewrite fold_format_step, render_turns_concat.
    assert (Hctx :
      match academic_context with
      | Some ((_ :: _) as ctx) =>
          user_context_of user_profile
            ++ List.fold_left (fun recent_progress progress =>
                                 recent_progress ++ progress_line progress)
                 (last_n 5 ctx) (lines [ ""; "RECENT ACADEMIC PROGRESS:"; "" ]%string)
      | _ => user_context_of user_profile
      end
      = user_context_of user_profile
        ++ match facts with
           | [] => []
           | _ :: _ =>
               lines [ ""; "RECENT ACADEMIC PROGRESS:"; "" ]%string
                 ++ List.concat (List.map progress_line (last_n 5 facts))
           end).
    { unfold facts. destruct academic_context as [[|f l]|];
        rewrite ?fold_progress_lines, ?List.app_nil_r; reflexivity. }
    rewrite Hctx, <- !List.app_assoc. reflexivity.
  - apply last_n_length.
  - unfold recent_messages, last_n.
    destruct (Nat.ltb_spec 10 (length history)); [rewrite length_drop|]; lia.
Qed.

(** One fact gives the header and one line. *)
Example build_system_prompt_one_fact :
  exists before,
    _build_system_prompt (ada (py "u1") mixed 0 0) (py "check_in") (Some [fact 3])
    = before
      ++ lines [ ""; "RECENT ACADEMIC PROGRESS:";
                 "- Math: Topic 3 (Understanding: 7/10)"; "" ]%string.
Proof.
  exists (prompt_check_in ++ lines [ ""; ""; "" ]%string
          ++ user_context_of (ada (py "u1") mixed 0 0)).
  vm_compute. reflexivity.
Qed.

(** ** The calls of [generate_response] *)

(** X3. [generate_response] sends the reply prompt first. When that call
    raises, no other prompt goes out. When it returns, exactly two more
    go out, the emotion prompt and then the understanding prompt built
    on the reply, whether or not they succeed, and the level returned is
    absent or lies between 1 and 10. Only the log of prompts changes. *)
Theorem generate_response_calls (self : GeminiService) (user_message : str)
    (history : list Message) (user_profile : User) (context_type : str)
    (academic_context : option (list AcademicProgress)) (w : World) :
  let prompt :=
    full_prompt user_message history user_profile context_type academic_context in
  match answer self w prompt with
  | Ok reply =>
      exists emotion level,
        generate_response self user_message history user_profile context_type
          academic_context w
        = (Ok (reply, emotion, level),
           set_sent (sent w ++ [ prompt; emotion_prompt user_message;
                                 understanding_prompt user_message reply ]) w)
        /\ match level with
           | Some l => (1 <= l <= 10)%Z
           | None => True
           end
  | Raise _ =>
      generate_response self user_message history user_profile context_type
        academic_context w
      = (Ok (_get_fallback_response, None, None), set_sent (sent w ++ [ prompt ]) w)
  end.
Proof.
  intros prompt. rewrite generate_response_run. fold prompt. cbv zeta.
  destruct (answer self w prompt) as [reply|err]; [|reflexivity].
  eexists _, _. split.
  - unfold after_prompt, set_sent. cbn [sent session_objects active_sessions
      conversations academic_progress]. rewrite <- !List.app_assoc. reflexivity.
  - destruct (answer self _ (understanding_prompt _ _)) as [r|]; [|exact I].
    destruct (level_of_reply r) as [l|] eqn:Hl; [|exact I].
    exact (level_of_reply_range _ _ Hl).
Qed.

(** ** What a turn leaves behind *)

Section Outcomes.

Variable gemini_service : GeminiService.

Ltac open_turn Hfound :=
  unfold found_in_history in Hfound;
  unfold process_message, try_except;
  rewrite bind_run; unfold get_conversation_history at 1;
  rewrite bind_run; unfold get_world at 1; cbn [mret M_ret];
  rewrite Hfound;
  rewrite bind_run; unfold get_user_progress at 1;
  rewrite bind_run; unfold get_world at 1; cbn [mret M_ret];
  rewrite bind_run; unfold get_world at 1;
  rewrite bind_run; unfold session_info_get at 1;
  rewrite bind_run; unfold get_world at 1; cbn [mret M_ret];
  rewrite bind_run.

Lemma generate_response_inv (user_message : str) (history : list Message)
    (user_profile : User) (context_type : str)
    (academic_context : option (list AcademicProgress)) (w wg : World)
    (reply : str) (emotion : option EmotionState) (level : option Z) :
  generate_response gemini_service user_message history user_profile context_type
    academic_context w = (Ok (reply, emotion, level), wg) ->
  match level with Some l => (1 <= l <= 10)%Z | None => True end
  /\ exists more,
       wg = set_sent
              (sent w
                 ++ full_prompt user_message history user_profile context_type
                      academic_context :: more) w
       /\ List.existsb is_suggestions_prompt more = false.
Proof.
  rewrite generate_response_run. cbv zeta.
  set (prompt := full_prompt _ _ _ _ _).
  destruct (answer gemini_service w prompt) as [r|err].
  - intros [= <- <- <- <-]. split.
    + destruct (answer gemini_service _ (understanding_prompt _ _)) as [r'|];
        [|exact I].
      destruct (level_of_reply r') as [l|] eqn:Hl; [|exact I].
      exact (level_of_reply_range _ _ Hl).
    + exists [emotion_prompt user_message; understanding_prompt user_message r].
      split.
      * unfold after_prompt, set_sent. cbn [sent session_objects active_sessions
          conversations academic_progress]. rewrite <- !List.app_assoc. reflexivity.
      * cbn [List.existsb].
        rewrite is_suggestions_prompt_emotion, is_suggestions_prompt_understanding.
        reflexivity.
  - intros [= <- <- <- <-]. split; [exact I|].
    exists []. split; reflexivity.
Qed.

Lemma process_message_stored (conversation_id0 user_message : str)
    (user_profile : User) (w : World) (conv : Conversation)
    (reply : str) (emotion : option EmotionState) (level : option Z) (wg : World) :
  found_in_history conversation_id0 user_profile w = Some conv ->
  generate_response gemini_service user_message (messages conv) user_profile
    (cached_session_type conversation_id0 w)
    (Some (progress_of (user_id user_profile) w)) w
  = (Ok (reply, emotion, level), wg) ->
  (1 <= len user_message <= 5000)%Z ->
  (1 <= len reply <= 5000)%Z ->
  exists stored suggestions0 w',
    process_message gemini_service conversation_id0 user_message user_profile w
    = (Ok (turn_answer conversation_id0 user_profile w
             {| response := reply; resp_emotion_detected := emotion;
                resp_understanding_level := level; suggestions := suggestions0;
                session_id := Some conversation_id0 |}), w')
    /\ List.find (has_id conversation_id0) (conversations w) = Some stored
    /\ conversations w' =
         append_message (assistant_turn reply)
           (append_message (user_turn user_message emotion level) stored)
         :: others conversation_id0 w
    /\ session_objects w' = bumped conversation_id0 w
    /\ active_sessions w' = active_sessions w
    /\ academic_progress w' = academic_progress w
    /\ user_documents w' = user_documents w
    /\ sent w' =
         sent wg
           ++ (if suggestion_gate (count_after conversation_id0 w)
               then [suggestions_prompt user_profile
                       (last_n 5 (progress_of (user_id user_profile) w)) None]
               else [])
    /\ (suggestion_gate (count_after conversation_id0 w) = false ->
        suggestions0 = []).
Proof.
  intros Hfound Hgen Hum Hreply.
  destruct (find_in_history _ _ _ _ Hfound) as [stored Hstored].
  destruct (generate_response_inv _ _ _ _ _ _ _ _ _ _ Hgen)
    as [Hlevel [more [-> _]]].
  assert (Hid : has_id conversation_id0 stored = true)
    by (apply List.find_some in Hstored; apply Hstored).
  open_turn Hfound.
  fold (progress_of (user_id user_profile) w).
  fold (cached_session_type conversation_id0 w).
  rewrite Hgen.
  set (w1 := set_sent _ w).
  rewrite bind_run, (Message_new_run user user_message emotion level w1 Hum Hlevel).
  fold (user_turn user_message emotion level).
  rewrite bind_run,
    (add_message_run conversation_id0 (user_turn user_message emotion level) w1 stored
       Hstored).
  set (w2 := set_conversations _ w1).
  rewrite bind_run, (Message_new_run assistant reply None None w2 Hreply I).
  fold (assistant_turn reply).
  rewrite bind_run,
    (add_message_run conversation_id0 (assistant_turn reply) w2
       (append_message (user_turn user_message emotion level) stored)).
  2: { unfold w2, set_conversations. cbn [conversations List.find].
       rewrite has_id_append, Hid. reflexivity. }
  set (w3 := set_conversations _ w2).
  assert (Hbump : update_session_info conversation_id0 w3
                  = (Ok tt, set_session_objects (bumped conversation_id0 w) w3)).
  { unfold update_session_info, bumped. rewrite bind_run. unfold get_world.
    change (active_sessions w3) with (active_sessions w).
    change (session_objects w3) with (session_objects w).
    destruct (active_sessions w !! conversation_id0); reflexivity. }
  rewrite bind_run, Hbump.
  set (w4 := set_session_objects _ w3).
  assert (Hcount : session_info_get (active_sessions w !! conversation_id0)
                     message_count 0%Z w4
                   = (Ok (count_after conversation_id0 w), w4)).
  { unfold session_info_get, count_after. rewrite bind_run. unfold get_world.
    cbn [mret M_ret]. change (session_objects w4) with (bumped conversation_id0 w).
    unfold bumped.
    destruct (active_sessions w !! conversation_id0) as [addr|]; [|reflexivity].
    rewrite lookup_alter_eq.
    destruct (session_objects w !! addr); reflexivity. }
  rewrite bind_run, Hcount, bind_run, last_five_or_none.
  assert (Hothers : List.filter (fun c => negb (has_id conversation_id0 c))
                      (conversations w2) = others conversation_id0 w).
  { unfold w2, set_conversations, others. cbn [conversations List.filter].
    rewrite has_id_append, Hid. cbn [negb]. apply filter_without_twice. }
  exists stored. unfold turn_answer.
  destruct (suggestion_gate (count_after conversation_id0 w)).
  - rewrite generate_study_suggestions_run. cbv beta iota.
    rewrite bind_run, update_user_activity_run.
    cbn [user_documents after_prompt set_sent w4 w3 w2 w1 set_session_objects
         set_conversations].
    eexists _, _.
    split; [destruct (decide (user_id user_profile ∈ user_documents w)); reflexivity|].
    repeat split; try assumption.
    + cbn [conversations after_prompt set_sent w4 w3 set_session_objects
           set_conversations]. rewrite Hothers. reflexivity.
    + discriminate.
  - cbn [mret M_ret]. cbv beta iota.
    rewrite bind_run, update_user_activity_run.
    cbn [user_documents after_prompt set_sent w4 w3 w2 w1 set_session_objects
         set_conversations].
    eexists _, _.
    split; [destruct (decide (user_id user_profile ∈ user_documents w)); reflexivity|].
    repeat split; try assumption.
    + cbn [conversations after_prompt set_sent w4 w3 set_session_objects
           set_conversations]. rewrite Hothers. reflexivity.
    + cbn [sent after_prompt set_sent w4 w3 w2 w1 set_session_objects
           set_conversations]. rewrite List.app_nil_r. reflexivity.
Qed.

Lemma Message_new_rejects (role0 : MessageRole) (content0 : str)
    (emotion : option EmotionState) (level : option Z) (w : World) :
  ~ (1 <= len content0 <= 5000)%Z ->
  Message_new role0 content0 emotion level w = (Raise ValidationError, w).
Proof.
  intros Hbad. unfold Message_new.
  destruct (Z.leb_spec 1 (len content0)); [|reflexivity].
  destruct (Z.leb_spec (len content0) 5000); [lia | reflexivity].
Qed.

Lemma generate_response_returns (user_message : str) (history : list Message)
    (user_profile : User) (context_type : str)
    (academic_context : option (list AcademicProgress)) (w : World) :
  exists reply emotion level wg,
    generate_response gemini_service user_message history user_profile context_type
      academic_context w = (Ok (reply, emotion, level), wg).
Proof.
  rewrite generate_response_run. cbv zeta.
  destruct (answer gemini_service w _); eexists _, _, _, _; reflexivity.
Qed.

Lemma process_message_unknown_run (conversation_id0 user_message : str)
    (user_profile : User) (w : World) :
  found_in_history conversation_id0 user_profile w = None ->
  process_message gemini_service conversation_id0 user_message user_profile w
  = (Ok (trouble_response conversation_id0), w).
Proof.
  intros Hnone. unfold found_in_history in Hnone.
  unfold process_message, try_except.
  rewrite bind_run. unfold get_conversation_history at 1.
  rewrite bind_run. unfold get_world at 1. cbn [mret M_ret].
  rewrite Hnone. reflexivity.
Qed.

(** X4. A conversation that is not among the ten most recently updated
    conversations of the user is not processed: the answer is the
    trouble response carrying the id, no prompt goes out, and the store
    and the session cache stay as they are. *)
Theorem process_message_unknown (conversation_id0 user_message : str)
    (user_profile : User) (w : World) :
  found_in_history conversation_id0 user_profile w = None ->
  process_message gemini_service conversation_id0 user_message user_profile w
  = (Ok (trouble_response conversation_id0), w).
Proof. exact (process_message_unknown_run conversation_id0 user_message user_profile w). Qed.

Lemma process_message_rejects_utterance_run (conversation_id0 user_message : str)
    (user_profile : User) (w : World) (conv : Conversation) :
  found_in_history conversation_id0 user_profile w = Some conv ->
  ~ (1 <= len user_message <= 5000)%Z ->
  exists more,
    process_message gemini_service conversation_id0 user_message user_profile w
    = (Ok (trouble_response conversation_id0),
       set_sent (sent w
                   ++ reply_prompt conversation_id0 user_message user_profile conv w
                      :: more) w).
Proof.
  intros Hfound Hbad.
  destruct (generate_response_returns user_message (messages conv) user_profile
              (cached_session_type conversation_id0 w)
              (Some (progress_of (user_id user_profile) w)) w)
    as [reply [emotion [level [wg Hgen]]]].
  destruct (generate_response_inv _ _ _ _ _ _ _ _ _ _ Hgen)
    as [_ [more [Hwg _]]].
  exists more. open_turn Hfound.
  fold (progress_of (user_id user_profile) w).
  fold (cached_session_type conversation_id0 w).
  rewrite Hgen, bind_run, (Message_new_rejects user user_message emotion level wg Hbad).
  rewrite Hwg. reflexivity.
Qed.

(** X5. An utterance that is empty or longer than 5000 characters is
    rejected only after the completion calls: the prompts of
    [generate_response] go out, starting with the reply prompt, then the
    answer is the trouble response, and nothing is stored and no count
    moves. *)
Theorem process_message_rejects_utterance (conversation_id0 user_message : str)
    (user_profile : User) (w : World) (conv : Conversation) :
  found_in_history conversation_id0 user_profile w = Some conv ->
  ~ (1 <= len user_message <= 5000)%Z ->
  exists more,
    process_message gemini_service conversation_id0 user_message user_profile w
    = (Ok (trouble_response conversation_id0),
       set_sent (sent w
                   ++ reply_prompt conversation_id0 user_message user_profile conv w
                      :: more) w).
Proof.
  exact (process_message_rejects_utterance_run conversation_id0 user_message
           user_profile w conv).
Qed.

Lemma process_message_rejects_reply_run (conversation_id0 user_message : str)
    (user_profile : User) (w : World) (conv : Conversation) (reply : str) :
  found_in_history conversation_id0 user_profile w = Some conv ->
  (1 <= len user_message <= 5000)%Z ->
  answer gemini_service w
    (reply_prompt conversation_id0 user_message user_profile conv w) = Ok reply ->
  ~ (1 <= len reply <= 5000)%Z ->
  exists stored emotion level w',
    process_message gemini_service conversation_id0 user_message user_profile w
    = (Ok (trouble_response conversation_id0), w')
    /\ List.find (has_id conversation_id0) (conversations w) = Some stored
    /\ conversations w' =
         append_message (user_turn user_message emotion level) stored
         :: others conversation_id0 w
    /\ session_objects w' = session_objects w
    /\ active_sessions w' = active_sessions w
    /\ academic_progress w' = academic_progress w
    /\ exists more,
         sent w' =
         sent w ++ reply_prompt conversation_id0 user_message user_profile conv w
           :: more.
Proof.
  intros Hfound Hum Hanswer Hbad.
  destruct (find_in_history _ _ _ _ Hfound) as [stored Hstored].
  destruct (generate_response_returns user_message (messages conv) user_profile
              (cached_session_type conversation_id0 w)
              (Some (progress_of (user_id user_profile) w)) w)
    as [reply' [emotion [level [wg Hgen]]]].
  assert (reply' = reply) as ->.
  { pose proof Hgen as Hgen'. rewrite generate_response_run in Hgen'. cbv zeta in Hgen'.
    unfold reply_prompt in Hanswer. rewrite Hanswer in Hgen'.
    injection Hgen' as <- _ _ _. reflexivity. }
  destruct (generate_response_inv _ _ _ _ _ _ _ _ _ _ Hgen)
    as [Hlevel [more [-> _]]].
  exists stored, emotion, level. open_turn Hfound.
  fold (progress_of (user_id user_profile) w).
  fold (cached_session_type conversation_id0 w).
  rewrite Hgen.
  set (w1 := set_sent _ w).
  rewrite bind_run, (Message_new_run user user_message emotion level w1 Hum Hlevel).
  fold (user_turn user_message emotion level).
  rewrite bind_run,
    (add_message_run conversation_id0 (user_turn user_message emotion level) w1 stored
       Hstored).
  set (w2 := set_conversations _ w1).
  rewrite bind_run, (Message_new_rejects assistant reply None None w2 Hbad).
  eexists. split; [reflexivity|].
  repeat split; try assumption. exists more. reflexivity.
Qed.





Lemma end_session_run (conversation_id0 : str) (user_profile : User) (w : World)
    (conv : Conversation) :
  found_in_history conversation_id0 user_profile w = Some conv ->
  let summary :=
    match answer gemini_service w (summary_prompt (messages conv) user_profile) with
    | Ok reply => strip reply
    | Raise _ => py "Study session completed successfully."
    end in
  exists stored,
    List.find (has_id conversation_id0) (conversations w) = Some stored
    /\ end_session gemini_service conversation_id0 user_profile w
       = (Ok summary,
          {| sent := sent w ++ [ summary_prompt (messages conv) user_profile ];
             session_objects := session_objects w;
             active_sessions := delete conversation_id0 (active_sessions w);
             conversations :=
               close_conversation summary stored :: others conversation_id0 w;
             academic_progress := academic_progress w;
             user_documents := user_documents w |}).
Proof.
  intros Hfound summary.
  destruct (find_in_history _ _ _ _ Hfound) as [stored Hstored].
  exists stored. split; [exact Hstored|].
  unfold found_in_history in Hfound. unfold end_session, try_except.
  rewrite bind_run. unfold get_conversation_history at 1.
  rewrite bind_run. unfold get_world at 1. cbn [mret M_ret].
  rewrite Hfound, bind_run, generate_session_summary_run.
  fold summary_fallback. change summary_fallback
    with (py "Study session completed successfully."). fold summary.
  set (w1 := after_prompt _ w).
  rewrite bind_run. unfold update_summary. rewrite bind_run. unfold get_world at 1.
  change (conversations w1) with (conversations w). rewrite Hstored.
  unfold modify_world at 1.
  rewrite bind_run. unfold remove_session. rewrite bind_run. unfold get_world at 1.
  cbn [active_sessions set_conversations].
  change (active_sessions w1) with (active_sessions w).
  destruct (active_sessions w !! conversation_id0) eqn:Hact.
  - reflexivity.
  - cbn [mret M_ret]. rewrite (delete_id _ _ Hact). reflexivity.
Qed.

(** X9. Ending a session the history finds sends one prompt, the
    summary prompt over all messages of the conversation, and returns
    the stripped reply, or the fixed sentence when the call raises. The
    conversation gets that summary, becomes inactive and keeps its
    messages, and its entry leaves the session cache. Nothing raises. *)
Theorem end_session_closes (conversation_id0 : str) (user_profile : User) (w : World)
    (conv : Conversation) :
  found_in_history conversation_id0 user_profile w = Some conv ->
  let summary :=
    match answer gemini_service w (summary_prompt (messages conv) user_profile) with
    | Ok reply => strip reply
    | Raise _ => py "Study session completed successfully."
    end in
  let w' := snd (end_session gemini_service conversation_id0 user_profile w) in
  fst (end_session gemini_service conversation_id0 user_profile w) = Ok summary
  /\ strip summary = summary
  /\ sent w' = sent w ++ [ summary_prompt (messages conv) user_profile ]
  /\ active_sessions w' !! conversation_id0 = None
  /\ exists stored,
       List.find (has_id conversation_id0) (conversations w) = Some stored
       /\ conversations w' =
            {| conversation_id := conversation_id stored;
               conv_user_id := conv_user_id stored;
               session_type := session_type stored;
               messages := messages stored;
               session_summary := Some summary;
               is_active := false |}
            :: others conversation_id0 w.
Proof.
  intros Hfound summary w'.
  destruct (end_session_run conversation_id0 user_profile w conv Hfound)
    as [stored [Hstored Hrun]].
  fold summary in Hrun. unfold w'. rewrite Hrun. cbn [fst snd sent active_sessions
    conversations].
  split; [reflexivity|]. split.
  - unfold summary. destruct (answer gemini_service w _); [apply strip_idem|].
    vm_compute. reflexivity.
  - split; [reflexivity|]. split; [apply lookup_delete_eq|].
    exists stored. split; [exact Hstored | reflexivity].
Qed.

(** X10. Ending a conversation the history does not find answers
    "Session ended." and does nothing else: no prompt goes out, and a
    cached entry of that id stays in the cache. *)
Theorem end_session_unknown (conversation_id0 : str) (user_profile : User)
    (w : World) :
  found_in_history conversation_id0 user_profile w = None ->
  end_session gemini_service conversation_id0 user_profile w
  = (Ok (py "Session ended."), w).
Proof.
  intros Hnone. unfold found_in_history in Hnone. unfold end_session, try_except.
  rewrite bind_run. unfold get_conversation_history at 1.
  rewrite bind_run. unfold get_world at 1. cbn [mret M_ret].
  rewrite Hnone. reflexivity.
Qed.

Lemma others_after_update (conversation_id0 : str) (c : Conversation) (w w' : World) :
  has_id conversation_id0 c = true ->
  conversations w' = c :: others conversation_id0 w ->
  others conversation_id0 w' = others conversation_id0 w.
Proof.
  intros Hid Hconvs. unfold others at 1. rewrite Hconvs. cbn [List.filter].
  rewrite Hid. cbn [negb]. apply filter_without_twice.
Qed.

Lemma process_message_effect (conversation_id0 user_message : str)
    (user_profile : User) (w : World) :
  exists resp w',
    process_message gemini_service conversation_id0 user_message user_profile w
    = (Ok resp, w')
    /\ session_id resp = Some conversation_id0
    /\ active_sessions w' = active_sessions w
    /\ academic_progress w' = academic_progress w
    /\ others conversation_id0 w' = others conversation_id0 w
    /\ (exists more, sent w' = sent w ++ more)
    /\ (session_objects w' = session_objects w
        \/ session_objects w' = bumped conversation_id0 w).
Proof.
  destruct (found_in_history conversation_id0 user_profile w) as [conv|] eqn:Hfound.
  2: { exists (trouble_response conversation_id0), w.
       rewrite (process_message_unknown_run _ _ _ _ Hfound).
       repeat split; try reflexivity; [exists []; symmetry; apply List.app_nil_r
                                      | left; reflexivity]. }
  destruct (decide (1 <= len user_message <= 5000)%Z) as [Hum|Hum].
  2: { destruct (process_message_rejects_utterance_run _ _ _ _ _ Hfound Hum)
         as [more Hrun].
       eexists _, _. split; [exact Hrun|].
       repeat split; try reflexivity; [eexists; reflexivity | left; reflexivity]. }
  destruct (generate_response_returns user_message (messages conv) user_profile
              (cached_session_type conversation_id0 w)
              (Some (progress_of (user_id user_profile) w)) w)
    as [reply [emotion [level [wg Hgen]]]].
  destruct (decide (1 <= len reply <= 5000)%Z) as [Hreply|Hreply].
  - destruct (process_message_stored conversation_id0 user_message user_profile w conv
                reply emotion level wg Hfound Hgen Hum Hreply)
      as [stored [suggestions0 [w' [Hrun [Hstored [Hconvs [Hobjs [Hact [Hprog
           [_ [Hsent _]]]]]]]]]]].
    destruct (generate_response_inv _ _ _ _ _ _ _ _ _ _ Hgen) as [_ [more [Hwg _]]].
    eexists _, w'. split; [exact Hrun|].
    split; [unfold turn_answer; destruct (decide _); reflexivity|].
    split; [exact Hact|]. split; [exact Hprog|].
    split; [|split; [|right; exact Hobjs]].
    + apply (others_after_update conversation_id0
               (append_message (assistant_turn reply)
                  (append_message (user_turn user_message emotion level) stored)));
        [|exact Hconvs].
      rewrite !has_id_append. apply List.find_some in Hstored. apply Hstored.
    + rewrite Hsent, Hwg. cbn [sent set_sent]. rewrite <- List.app_assoc.
      eexists. reflexivity.
  - assert (Hanswer : answer gemini_service w
              (reply_prompt conversation_id0 user_message user_profile conv w)
              = Ok reply).
    { pose proof Hgen as Hgen'. rewrite generate_response_run in Hgen'.
      cbv zeta in Hgen'. unfold reply_prompt.
      destruct (answer gemini_service w _) as [r|err].
      - injection Hgen' as <- _ _ _. reflexivity.
      - injection Hgen' as <- _ _ _. exfalso. apply Hreply.
        split; apply Z.leb_le; vm_compute; reflexivity. }
    destruct (process_message_rejects_reply_run _ _ _ _ _ _ Hfound Hum Hanswer Hreply)
      as [stored [emotion' [level' [w' [Hrun [Hstored [Hconvs [Hobjs [Hact [Hprog
           [more Hsent]]]]]]]]]]].
    eexists _, w'. split; [exact Hrun|].
    split; [reflexivity|]. split; [exact Hact|]. split; [exact Hprog|].
    split; [|split; [eexists; exact Hsent | left; exact Hobjs]].
    apply (others_after_update conversation_id0
             (append_message (user_turn user_message emotion' level') stored));
      [|exact Hconvs].
    rewrite has_id_append. apply List.find_some in Hstored. apply Hstored.
Qed.

(** X11. [process_message] never raises and always answers with the
    conversation id it was given. Whatever happens in it, the session
    cache keeps its keys, the progress facts and the conversations of
    other ids stay as they were, and prompts are only added to the log. *)
Theorem process_message_contained (conversation_id0 user_message : str)
    (user_profile : User) (w : World) :
  exists resp w',
    process_message gemini_service conversation_id0 user_message user_profile w
    = (Ok resp, w')
    /\ session_id resp = Some conversation_id0
    /\ active_sessions w' = active_sessions w
    /\ academic_progress w' = academic_progress w
    /\ others conversation_id0 w' = others conversation_id0 w
    /\ exists more, sent w' = sent w ++ more.
Proof.
  destruct (process_message_effect conversation_id0 user_message user_profile w)
    as [resp [w' [Hrun [Hid [Hact [Hprog [Hothers [Hsent _]]]]]]]].
  exists resp, w'. repeat split; assumption.
Qed.

Lemma get_active_sessions_spec (user_id0 conversation_id0 : str) (w : World) :
  In conversation_id0 (get_active_sessions user_id0 w)
  <-> exists addr info,
        active_sessions w !! conversation_id0 = Some addr
        /\ session_objects w !! addr = Some info
        /\ si_user_id info = user_id0.
Proof.
  unfold get_active_sessions. rewrite List.in_map_iff. split.
  - intros [[k addr] [Hk Hin]]. cbn [fst] in Hk. subst k.
    apply List.filter_In in Hin. destruct Hin as [Hin Hkeep]. cbn [snd] in Hkeep.
    apply list_elem_of_In, elem_of_map_to_list in Hin.
    destruct (session_objects w !! addr) as [info|] eqn:Hinfo; [|discriminate].
    exists addr, info. repeat split; try assumption.
    apply bool_decide_eq_true in Hkeep. exact Hkeep.
  - intros [addr [info [Hact [Hinfo Huser]]]].
    exists (conversation_id0, addr). split; [reflexivity|].
    apply List.filter_In. split.
    + apply list_elem_of_In, elem_of_map_to_list. exact Hact.
    + cbn [snd]. rewrite Hinfo. apply bool_decide_eq_true. exact Huser.
Qed.

Lemma start_conversation_run (new_id user_id0 session_type0 : str) (w : World) :
  start_conversation new_id user_id0 session_type0 w =
  (Ok {| conversation_id := new_id; conv_user_id := user_id0;
         session_type := session_type0; messages := [];
         session_summary := None; is_active := true |},
   {| sent := sent w;
      session_objects :=
        <[fresh (dom (session_objects w)) :=
            {| si_user_id := user_id0; si_session_type := session_type0;
               message_count := 0 |}]> (session_objects w);
      active_sessions := <[new_id := fresh (dom (session_objects w))]> (active_sessions w);
      conversations :=
        {| conversation_id := new_id; conv_user_id := user_id0;
           session_type := session_type0; messages := [];
           session_summary := None; is_active := true |}
        :: others new_id w;
      academic_progress := academic_progress w;
      user_documents := user_documents w |}).
Proof.
  unfold start_conversation, try_except, create_conversation.
  rewrite !bind_run. unfold modify_world, get_world. cbn [mret M_ret].
  rewrite !bind_run. cbn [mret M_ret]. reflexivity.
Qed.

(** X12. Opening a conversation never raises. It returns an active
    conversation of the user with the given id and session type, no
    messages and no summary; the store holds it as the most recently
    updated one, in place of any document that had the id; the cache
    lists it for the user with count 0 and the session type; and the
    entries that other sessions point to are not touched. *)
Theorem start_conversation_registers (new_id session_type0 : str)
    (user_profile : User) (w : World) :
  let fresh_conversation :=
    {| conversation_id := new_id; conv_user_id := user_id user_profile;
       session_type := session_type0; messages := [];
       session_summary := None; is_active := true |} in
  let w' := snd (start_conversation new_id (user_id user_profile) session_type0 w) in
  fst (start_conversation new_id (user_id user_profile) session_type0 w)
  = Ok fresh_conversation
  /\ conversations w' = fresh_conversation :: others new_id w
  /\ found_in_history new_id user_profile w' = Some fresh_conversation
  /\ In new_id (get_active_sessions (user_id user_profile) w')
  /\ running_count new_id w' = 0%Z
  /\ cached_session_type new_id w' = session_type0
  /\ forall addr info,
       session_objects w !! addr = Some info ->
       session_objects w' !! addr = Some info.
Proof.
  intros fresh_conversation w'. unfold w'. rewrite start_conversation_run.
  cbn [fst snd]. fold fresh_conversation.
  assert (Hid : has_id new_id fresh_conversation = true)
    by (apply bool_decide_eq_true; reflexivity).
  split; [reflexivity|]. split; [reflexivity|]. split.
  { unfold found_in_history. cbn [conversations List.filter conv_user_id
      fresh_conversation].
    rewrite bool_decide_eq_true_2 by reflexivity. cbn [take List.find].
    fold fresh_conversation. rewrite Hid. reflexivity. }
  split.
  { apply get_active_sessions_spec. eexists _, _.
    cbn [active_sessions session_objects].
    split; [apply lookup_insert_eq|]. split; [apply lookup_insert_eq | reflexivity]. }
  split.
  { unfold running_count. cbn [active_sessions session_objects].
    rewrite !lookup_insert_eq. reflexivity. }
  split.
  { unfold cached_session_type. cbn [active_sessions session_objects].
    rewrite !lookup_insert_eq. reflexivity. }
  intros addr info Hinfo. cbn [session_objects].
  rewrite lookup_insert_ne; [exact Hinfo|].
  intros Heq. pose proof (is_fresh (dom (session_objects w))) as Hfresh.
  rewrite Heq in Hfresh. apply Hfresh. apply elem_of_dom. eexists. exact Hinfo.
Qed.

(** X13. Ending a session the history finds takes exactly that session
    off the list of active sessions: the id is no longer listed for any
    user, and every other id is listed as before. *)
Theorem end_session_delists (conversation_id0 : str) (user_profile : User)
    (w : World) (conv : Conversation) :
  found_in_history conversation_id0 user_profile w = Some conv ->
  let w' := snd (end_session gemini_service conversation_id0 user_profile w) in
  (forall user_id0, ~ In conversation_id0 (get_active_sessions user_id0 w'))
  /\ forall user_id0 other,
       other <> conversation_id0 ->
       (In other (get_active_sessions user_id0 w')
        <-> In other (get_active_sessions user_id0 w)).
Proof.
  intros Hfound w'.
  destruct (end_session_run conversation_id0 user_profile w conv Hfound)
    as [stored [_ Hrun]].
  unfold w'. rewrite Hrun. cbn [snd]. split.
  - intros user_id0 Hin. apply get_active_sessions_spec in Hin.
    destruct Hin as [addr [info [Hact _]]]. cbn [active_sessions] in Hact.
    rewrite lookup_delete_eq in Hact. discriminate.
  - intros user_id0 other Hne. rewrite !get_active_sessions_spec.
    cbn [active_sessions session_objects].
    rewrite lookup_delete_ne by congruence. reflexivity.
Qed.


Lemma bumped_keeps_owner (conversation_id0 : str) (w : World) (addr : N)
    (info : SessionInfo) :
  session_objects w !! addr = Some info ->
  exists info',
    bumped conversation_id0 w !! addr = Some info'
    /\ si_user_id info' = si_user_id info
    /\ si_session_type info' = si_session_type info.
Proof.
  intros Hinfo. unfold bumped.
  destruct (active_sessions w !! conversation_id0) as [a|];
    [|exists info; repeat split; exact Hinfo].
  destruct (decide (a = addr)) as [->|Hne].
  - rewrite lookup_alter_eq, Hinfo. exists (add_two info). repeat split.
  - rewrite lookup_alter_ne by exact Hne. exists info. repeat split; exact Hinfo.
Qed.

(** X15. The message route. With a conversation id, it is
    [process_message] on that id: the session type sent along plays no
    part. Without one, or with an empty one, it opens a conversation
    first and answers with the new id in every case, also when the
    message is then rejected; the new session is listed for the user with
    the session type sent along. The route never raises. *)
Theorem send_message_routes (new_id message session_type0 : str)
    (conversation_id0 : option str) (current_user : User) (w : World) :
  match conversation_id0 with
  | Some (c :: given) =>
      send_message gemini_service new_id message (Some (c :: given)) session_type0
        current_user w
      = process_message gemini_service (c :: given) message current_user w
  | _ =>
      exists resp w',
        send_message gemini_service new_id message conversation_id0 session_type0
          current_user w = (Ok resp, w')
        /\ session_id resp = Some new_id
        /\ In new_id (get_active_sessions (user_id current_user) w')
        /\ cached_session_type new_id w' = session_type0
  end.
Proof.
  assert (Hopen : forall cid0, cid0 = None \/ cid0 = Some [] ->
    exists resp w',
      send_message gemini_service new_id message cid0 session_type0 current_user w
      = (Ok resp, w')
      /\ session_id resp = Some new_id
      /\ In new_id (get_active_sessions (user_id current_user) w')
      /\ cached_session_type new_id w' = session_type0).
  { intros cid0 Hcid.
    assert (Hsend : send_message gemini_service new_id message cid0 session_type0
                      current_user w
                    = try_except
                        (process_message gemini_service new_id message current_user)
                        (fun _ => mret (chat_error_response (Some new_id)))
                        (snd (start_conversation new_id (user_id current_user)
                                session_type0 w))).
    { unfold send_message. destruct Hcid as [-> | ->];
        rewrite start_conversation_run; reflexivity. }
    rewrite Hsend. set (w1 := snd (start_conversation _ _ _ w)).
    destruct (process_message_effect new_id message current_user w1)
      as [resp [w' [Hrun [Hid [Hact [_ [_ [_ Hobjs]]]]]]]].
    exists resp, w'. unfold try_except. rewrite Hrun.
    split; [reflexivity|]. split; [exact Hid|].
    assert (Hentry : exists addr info,
              active_sessions w1 !! new_id = Some addr
              /\ session_objects w1 !! addr = Some info
              /\ si_user_id info = user_id current_user
              /\ si_session_type info = session_type0).
    { unfold w1. rewrite start_conversation_run. cbn [snd active_sessions
        session_objects]. eexists _, _.
      split; [apply lookup_insert_eq|]. split; [apply lookup_insert_eq|].
      split; reflexivity. }
    destruct Hentry as [addr [info [Ha [Hi [Hu Ht]]]]].
    assert (Hentry' : exists info',
              session_objects w' !! addr = Some info'
              /\ si_user_id info' = user_id current_user
              /\ si_session_type info' = session_type0).
    { destruct Hobjs as [-> | ->].
      - exists info. repeat split; assumption.
      - destruct (bumped_keeps_owner new_id w1 addr info Hi) as [info' [H1 [H2 H3]]].
        exists info'. repeat split; congruence. }
    destruct Hentry' as [info' [Hi' [Hu' Ht']]].
    split.
    - apply get_active_sessions_spec. exists addr, info'.
      rewrite Hact. repeat split; assumption.
    - unfold cached_session_type. rewrite Hact, Ha, Hi'. exact Ht'. }
  destruct conversation_id0 as [[|c given]|].
  - apply Hopen. right. reflexivity.
  - unfold send_message, try_except.
    destruct (process_message_effect (c :: given) message current_user w)
      as [resp [w' [Hrun _]]].
    rewrite Hrun. reflexivity.
  - apply Hopen. left. reflexivity.
Qed.

(** X16. The recommendations of a report are the study suggestions over
    all the progress facts and reminders of the report: the prompt holds
    the last ten facts (no slice of five here) and the reminders as
    upcoming exams, joined by commas, when there are any. The fallback
    list of the analytics service is never used, since
    [generate_study_suggestions] does not raise; on a failed call the
    recommendations are its four fixed suggestions. *)
Theorem recommendations_are_suggestions (user_profile : User)
    (progress_data : list AcademicProgress) (conversations0 : list Conversation)
    (reminders : list Reminder) (w : World) :
  let prompt :=
    lines [ ""; "Generate 3-5 personalized study suggestions for " ]%string
    ++ name user_profile
    ++ lines [ "."; "Consider their:"; "- Academic level: " ]%string
    ++ AcademicLevel_value (academic_level user_profile)
    ++ lines [ ""; "- Learning style: " ]%string
    ++ StudyStyle_value (study_style (learning_preferences user_profile))
    ++ lines [ ""; "- Recent progress: " ]%string
    ++ join [newline] (List.map suggestion_progress_line (last_n 10 progress_data))
    ++ [newline]
    ++ match reminders with
       | [] => []
       | _ :: _ =>
           lines [ ""; "Upcoming exams: " ]%string
             ++ join (py ", ") (List.map exam_line reminders)
       end
    ++ lines
       [ "";
         "";
         "Provide specific, actionable suggestions that match their learning style and current needs.";
         "";
         "Suggestions:" ]%string in
  _generate_recommendations gemini_service user_profile progress_data conversations0
    reminders w
  = (Ok match answer gemini_service w prompt with
        | Ok reply => suggestions_of_reply reply
        | Raise _ => suggestions_fallback
        end,
     set_sent (sent w ++ [ prompt ]) w).
Proof.
  intros prompt. unfold _generate_recommendations, try_except.
  rewrite bind_run, generate_study_suggestions_run.
  assert (Hprompt : suggestions_prompt user_profile progress_data (Some reminders)
                    = prompt).
  { unfold suggestions_prompt, prompt. cbv zeta. destruct reminders; reflexivity. }
  rewrite Hprompt. reflexivity.
Qed.






End Outcomes.

(** ** The outcomes in the scenarios *)

Lemma process_message_unknown_witness :
  process_message always_answers (py "c0") (py "Hello") (ada (py "u1") mixed 0 0) eleven_sessions
  = (Ok (trouble_response (py "c0")), eleven_sessions).
Proof. apply process_message_unknown. vm_compute. reflexivity. Defined.

Lemma process_message_rejects_utterance_witness :
  exists more,
    process_message always_answers (py "c1") [] (ada (py "u1") mixed 0 0) two_turns_in
    = (Ok (trouble_response (py "c1")),
       set_sent (sent two_turns_in
                   ++ reply_prompt (py "c1") [] (ada (py "u1") mixed 0 0) third_turn_conversation
                        two_turns_in
                      :: more) two_turns_in).
Proof.
  apply process_message_rejects_utterance.
  - vm_compute. reflexivity.
  - vm_compute. intros [H _]. apply H. reflexivity.
Defined.



(** A user without a document: both messages of the turn are stored,
    and the answer is the trouble response. *)
Example turn_of_user_without_document :
  fst (process_message always_answers (py "c1") (py "Hello") (ada (py "u1") mixed 0 0) one_session)
  = Ok (trouble_response (py "c1"))
  /\ stored_turns (py "c1")
       (snd (process_message always_answers (py "c1") (py "Hello") (ada (py "u1") mixed 0 0) one_session))
     = 2%Z.
Proof. split; vm_compute; reflexivity. Qed.


Lemma end_session_unknown_witness :
  end_session always_answers (py "c0") (ada (py "u1") mixed 0 0) eleven_sessions
  = (Ok (py "Session ended."), eleven_sessions).
Proof. apply end_session_unknown. vm_compute. reflexivity. Defined.

Lemma end_session_delists_witness :
  ~ In (py "c1")
      (get_active_sessions (py "u1")
         (snd (end_session always_answers (py "c1") (ada (py "u1") mixed 0 0) two_turns_in))).
Proof.
  refine (proj1 (end_session_delists always_answers (py "c1") (ada (py "u1") mixed 0 0) two_turns_in
                   third_turn_conversation _) (py "u1")).
  vm_compute. reflexivity.
Defined.

Lemma end_session_closes_witness :
  sent (snd (end_session always_answers (py "c1") (ada (py "u1") mixed 0 0) two_turns_in))
  = sent two_turns_in ++ [ summary_prompt (messages third_turn_conversation) (ada (py "u1") mixed 0 0) ].
Proof.
  refine (proj1 (proj2 (proj2 (end_session_closes always_answers (py "c1") (ada (py "u1") mixed 0 0)
                                 two_turns_in third_turn_conversation _)))).
  vm_compute. reflexivity.
Defined.




(** ** The understanding level of a turn *)

(** X18. When the reply to the understanding prompt holds neither "N/A"
    nor "n/a", the level is read from the first run of digits of the
    stripped reply and pulled into the range from 1 to 10; later numbers
    are not looked at. (The run is kept within the 4300 digits that
    [int] converts under the default limit of the interpreter.) *)
Theorem extract_understanding_level_first_number (self : GeminiService)
    (user_message ai_response reply pre run post : str) (w : World) :
  answer self w (understanding_prompt user_message ai_response) = Ok reply ->
  contains (strip reply) (py "N/A") = false ->
  contains (strip reply) (py "n/a") = false ->
  strip reply = pre ++ run ++ post ->
  Forall (fun c => is_digit c = false) pre ->
  Forall (fun c => is_digit c = true) run ->
  run <> [] ->
  (len run <= 4300)%Z ->
  match post with [] => True | c :: _ => is_digit c = false end ->
  fst (_extract_understanding_level self user_message ai_response w)
  = Ok (Some (Z.max 1 (Z.min 10 (int_of_digits run)))).
Proof.
  intros Hanswer H1 H2 Hsplit Hpre Hrun Hne _ Hpost.
  rewrite extract_understanding_level_run, Hanswer. cbn [fst].
  rewrite (level_of_reply_first_run reply pre run post H1 H2 Hsplit Hpre Hrun Hne Hpost).
  reflexivity.
Qed.

Lemma extract_understanding_level_first_number_witness :
  fst (_extract_understanding_level estimates (py "Is it 3?") (py "Yes.") empty_world)
  = Ok (Some (Z.max 1 (Z.min 10 (int_of_digits (py "12"))))).
Proof.
  apply (extract_understanding_level_first_number estimates (py "Is it 3?")
           (py "Yes.") (py " about 12 or 8 ") (py "about ") (py "12") (py " or 8")
           empty_world).
  - reflexivity.
  - vm_compute. reflexivity.
  - vm_compute. reflexivity.
  - vm_compute. reflexivity.
  - repeat constructor.
  - repeat constructor.
  - discriminate.
  - vm_compute. discriminate.
  - vm_compute. reflexivity.
Defined.

(** X19. [_extract_understanding_level] never raises, and a level it
    returns lies between 1 and 10. A [Message] built with it is therefore
    accepted or refused exactly as the same message without a level: the
    detected level never makes a turn fail. *)
Theorem extract_understanding_level_valid (self : GeminiService)
    (user_message ai_response : str) (w : World) :
  exists level,
    fst (_extract_understanding_level self user_message ai_response w) = Ok level
    /\ match level with
       | Some l => (1 <= l <= 10)%Z
       | None => True
       end
    /\ forall (role0 : MessageRole) (content0 : str)
         (emotion : option EmotionState) (w' : World),
         fst (Message_new role0 content0 emotion level w')
         = match fst (Message_new role0 content0 emotion None w') with
           | Ok m => Ok {| role := role m; content := content m;
                           emotion_detected := emotion_detected m;
                           understanding_level := level |}
           | Raise e => Raise e
           end.
Proof.
  rewrite extract_understanding_level_run. cbn [fst].
  assert (Hrange : forall level : option Z,
            match level with Some l => (1 <= l <= 10)%Z | None => True end ->
            forall (role0 : MessageRole) (content0 : str)
              (emotion : option EmotionState) (w' : World),
              fst (Message_new role0 content0 emotion level w')
              = match fst (Message_new role0 content0 emotion None w') with
                | Ok m => Ok {| role := role m; content := content m;
                                emotion_detected := emotion_detected m;
                                understanding_level := level |}
                | Raise e => Raise e
                end).
  { intros [l|] Hl role0 content0 emotion w'; unfold Message_new.
    - destruct Hl as [Hl1 Hl2].
      apply Z.leb_le in Hl1. apply Z.leb_le in Hl2. rewrite Hl1, Hl2.
      destruct ((1 <=? len content0)%Z && (len content0 <=? 5000)%Z); reflexivity.
    - destruct ((1 <=? len content0)%Z && (len content0 <=? 5000)%Z); reflexivity. }
  destruct (answer self w (understanding_prompt user_message ai_response))
    as [reply|e].
  - exists (level_of_reply reply). split; [reflexivity|].
    assert (Hl : match level_of_reply reply with
                 | Some l => (1 <= l <= 10)%Z
                 | None => True
                 end).
    { destruct (level_of_reply reply) as [l|] eqn:E; [|exact I].
      exact (level_of_reply_range reply l E). }
    split; [exact Hl | exact (Hrange _ Hl)].
  - exists None. split; [reflexivity|]. split; [exact I | exact (Hrange None I)].
Qed.

(** ** What the reply prompt forgets *)

(** X20. Only the last ten messages of a conversation reach the model:
    whatever was said before them, [generate_response] sends the same
    prompts and returns the same result. *)
Theorem generate_response_forgets_older (self : GeminiService) (user_message : str)
    (older recent : list Message) (user_profile : User) (context_type : str)
    (academic_context : option (list AcademicProgress)) (w : World) :
  length recent = 10%nat ->
  generate_response self user_message (older ++ recent) user_profile context_type
    academic_context w
  = generate_response self user_message recent user_profile context_type
      academic_context w.
Proof.
  intros Hten.
  assert (Hprompt :
            full_prompt user_message (older ++ recent) user_profile context_type
              academic_context
            = full_prompt user_message recent user_profile context_type
                academic_context).
  { unfold full_prompt, _format_conversation_history. cbv zeta.
    do 3 f_equal. unfold recent_messages, last_n.
    rewrite length_app, Hten.
    replace (length older + 10 - 10)%nat with (length older) by lia.
    rewrite drop_app_length.
    destruct (Nat.ltb_spec 10 (length older + 10)), (Nat.ltb_spec 10 10); try lia.
    - reflexivity.
    - destruct older; [reflexivity | cbn [length] in *; lia]. }
  rewrite !generate_response_run. cbv zeta. rewrite Hprompt. reflexivity.
Qed.

Lemma generate_response_forgets_older_witness :
  generate_response always_answers (py "And now?")
    ([confused_turn] ++ List.repeat confused_turn 10) (ada (py "u1") mixed 0 0)
    (py "general") None empty_world
  = generate_response always_answers (py "And now?")
      (List.repeat confused_turn 10) (ada (py "u1") mixed 0 0)
      (py "general") None empty_world.
Proof. apply generate_response_forgets_older. reflexivity. Defined.
